(** * Binance Futures filter dashboard: a shallow embedding

    The program is a Streamlit script, [binance_future_filter.py].  Every
    rerun of the script reads the sidebar widgets, optionally runs the
    [need_reload] block (metadata, tickers, the filter loop, the sort) and
    then draws a chart from [get_klines_cached].

    The embedding keeps the script's state explicit:
    - [st.session_state] is a record ([symbols_cache], [candle_cache],
      [filtered_df]);
    - the two [st.cache_data] slots are part of the process state, each
      holding the value and the time it was stored;
    - every [requests.get] is appended to a log of sent requests, so that
      "no network round-trip" is a statement about that log;
    - a Python exception is an outcome [Raised e]; the state reached when
      it was raised is kept, as in Python.

    Python floats are IEEE binary64 numbers: the primitive type [float]. *)

From Stdlib Require Import ZArith List Lia Bool Ascii.
From Stdlib Require Import Floats.
From stdpp Require Import gmap strings list.

Local Open Scope Z_scope.

(** ** Python floats *)

Module PyFloat.

(** [x != x]: true of NaN only. *)
Definition is_nan (x : float) : bool := PrimFloat.is_nan x.

(** [x >= 0], with the integer literal converted to [0.0]. *)
Definition ge0 (x : float) : bool := PrimFloat.leb PrimFloat.zero x.

(** [x < 0]. *)
Definition lt0 (x : float) : bool := PrimFloat.ltb x PrimFloat.zero.

(** The float nearest to an integer. *)
Definition of_Z (z : Z) : float :=
  SF2Prim (binary_normalize prec emax z 0 false).

End PyFloat.

(** ** Wire formats

    The three endpoints answer with JSON of a fixed shape; a body that
    does not decode to that shape is a body whose decoding raises.
    - [/fapi/v1/exchangeInfo]: [{"symbols": [{symbol, quoteAsset,
      contractType, status}, ...]}];
    - [/fapi/v1/ticker/24hr]: [[{symbol, priceChangePercent, lastPrice,
      quoteVolume}, ...]], every value a string;
    - [/fapi/v1/klines]: an array of arrays of integers (times, counts)
      and strings (prices, volumes). *)

Inductive jv : Type :=
| JInt (z : Z)
| JStr (s : string)
| JNull.

Record symbol_info := {
  si_symbol : string;
  quoteAsset : string;
  contractType : string;
  status : string;
}.

Record ticker := {
  tk_symbol : string;
  priceChangePercent : string;
  lastPrice : string;
  quoteVolume : string;
}.

(** What [requests.get] hands back: it raises (time-out after 10 s,
    connection error), or returns a response whose [.json()] decodes the
    body ([None]: decoding raises). *)
Record response (B : Type) := {
  status_code : Z;
  json : option B;
}.
Arguments status_code {B} _.
Arguments json {B} _.

Inductive reply (B : Type) : Type :=
| GetRaises
| Response (r : response B).
Arguments GetRaises {B}.
Arguments Response {B} r.

Record network := {
  EXCHANGE_INFO : reply (list symbol_info);
  TICKER_24H : reply (list ticker);
  KLINES : string -> string -> Z -> option Z -> reply (list (list jv));
}.

Inductive request : Type :=
| GET_exchangeInfo
| GET_ticker_24hr
| GET_klines (symbol interval : string) (limit : Z) (startTime : option Z).

Definition INTERVAL_MAP : list (string * string) :=
  [ ("M1", "1m"); ("M15", "15m"); ("M30", "30m"); ("H1", "1h");
    ("H4", "4h"); ("D1", "1d"); ("W1", "1w") ]%string.

(** ** Tables *)

Inductive datetime64 : Type :=
| NaT
| Timestamp (ns : Z).

(** A cell of a numeric column. pandas types a column as a whole: a
    column of integers keeps them exactly ([int64] or [uint64]), any
    other numeric column is made of floats ([float64]). *)
Inductive number : Type :=
| NInt (z : Z)
| NFloat (x : float).

(** One line of the candle frame, after the numeric and the time columns
    were converted; the five other columns stay as they came. *)
Record candle := {
  openTime : datetime64;
  open : number;
  high : number;
  low : number;
  close : number;
  volume : number;
  closeTime : datetime64;
  quoteAssetVolume : jv;
  nbrTrades : jv;
  takerBuyBase : jv;
  takerBuyQuote : jv;
  ignore : jv;
}.

(** One dict appended to [rows]. *)
Record row := {
  symbol : string;
  pct_24h : float;         (* "% 24h" *)
  last_price : float;
  volume_USDT : float;     (* "volume (USDT)" *)
  listed_date : string;
}.

Definition row_keys : list string :=
  [ "symbol"; "% 24h"; "last_price"; "volume (USDT)"; "listed_date" ]%string.

(** [pd.DataFrame(rows)]: the columns are the keys of the dicts, so a
    frame built from no dict has no column. *)
Record DataFrame := {
  columns : list string;
  records : list row;
}.

Definition DataFrame_of_rows (rows : list row) : DataFrame :=
  {| columns := match rows with [] => [] | _ :: _ => row_keys end;
     records := rows |}.

(** ** Exceptions and the state of the process *)

Inductive exn : Type :=
| RequestException                (* requests.get: time-out, connection *)
| HTTPError (code : Z)            (* raise_for_status *)
| JSONDecodeError                 (* r.json() *)
| ValueError
| TypeError
| IndexError
| KeyError (key : string).

Inductive outcome (A : Type) : Type :=
| Returned (a : A)
| Raised (e : exn).
Arguments Returned {A} a.
Arguments Raised {A} e.

Record session_state := {
  symbols_cache : option (list symbol_info);
  candle_cache : gmap string (list candle);
  filtered_df : option DataFrame;
}.

(** The start of a session: [symbols_cache] is [None], [candle_cache] is
    [{}] and there is no ["filtered_df"] key. *)
Definition new_session : session_state :=
  {| symbols_cache := None; candle_cache := ∅; filtered_df := None |}.

Record world := {
  session : session_state;
  (* the slots of the two st.cache_data functions: time stored, value *)
  memo_symbols : option (Z * list symbol_info);
  memo_tickers : option (Z * list ticker);
  (* every requests.get made so far, oldest first *)
  sent : list request;
}.

Definition new_world : world :=
  {| session := new_session; memo_symbols := None; memo_tickers := None;
     sent := [] |}.

(** What one rerun of the script sees from outside: the clock and the
    answers of the exchange. *)
Record env := {
  now : Z;
  net : network;
}.

Definition M (A : Type) : Type := world -> outcome A * world.

Definition ret {A} (a : A) : M A := fun w => (Returned a, w).
Definition raise {A} (e : exn) : M A := fun w => (Raised e, w).
Definition bind {A B} (m : M A) (k : A -> M B) : M B :=
  fun w => match m w with
           | (Returned a, w') => k a w'
           | (Raised e, w') => (Raised e, w')
           end.
Definition gets {A} (f : world -> A) : M A := fun w => (Returned (f w), w).
Definition modify (f : world -> world) : M unit := fun w => (Returned tt, f w).
Definition lift {A} (o : outcome A) : M A := fun w => (o, w).

(** [try: body / except: handler], the bare [except] that catches all. *)
Definition try_except {A} (body handler : M A) : M A :=
  fun w => match body w with
           | (Returned a, w') => (Returned a, w')
           | (Raised _, w') => handler w'
           end.

Notation "'let*' x ':=' c1 'in' c2" := (bind c1 (fun x => c2))
  (at level 10, x name, c1 at level 100, c2 at level 200).

Definition set_symbols_cache (v : option (list symbol_info)) (w : world) : world :=
  {| session := {| symbols_cache := v;
                   candle_cache := candle_cache (session w);
                   filtered_df := filtered_df (session w) |};
     memo_symbols := memo_symbols w; memo_tickers := memo_tickers w;
     sent := sent w |}.

Definition set_candle_cache (v : gmap string (list candle)) (w : world) : world :=
  {| session := {| symbols_cache := symbols_cache (session w);
                   candle_cache := v;
                   filtered_df := filtered_df (session w) |};
     memo_symbols := memo_symbols w; memo_tickers := memo_tickers w;
     sent := sent w |}.

Definition set_filtered_df (v : option DataFrame) (w : world) : world :=
  {| session := {| symbols_cache := symbols_cache (session w);
                   candle_cache := candle_cache (session w);
                   filtered_df := v |};
     memo_symbols := memo_symbols w; memo_tickers := memo_tickers w;
     sent := sent w |}.

Definition set_memo_symbols (v : option (Z * list symbol_info)) (w : world) : world :=
  {| session := session w; memo_symbols := v;
     memo_tickers := memo_tickers w; sent := sent w |}.

Definition set_memo_tickers (v : option (Z * list ticker)) (w : world) : world :=
  {| session := session w; memo_symbols := memo_symbols w;
     memo_tickers := v; sent := sent w |}.

Definition log_request (rq : request) (w : world) : world :=
  {| session := session w; memo_symbols := memo_symbols w;
     memo_tickers := memo_tickers w; sent := sent w ++ [rq] |}.

(** ** The HTTP client *)

(** [requests.get(url, params, timeout=10)]. *)
Definition requests_get {B} (rq : request) (answer : reply B) : M (response B) :=
  let* _ := modify (log_request rq) in
  match answer with
  | GetRaises => raise RequestException
  | Response r => ret r
  end.

(** [r.raise_for_status()] raises for the 4xx and 5xx codes. *)
Definition raise_for_status {B} (r : response B) : M unit :=
  if (400 <=? status_code r) && (status_code r <? 600)
  then raise (HTTPError (status_code r))
  else ret tt.

(** [r.json()]. *)
Definition r_json {B} (r : response B) : M B :=
  match json r with
  | Some b => ret b
  | None => raise JSONDecodeError
  end.

(** [@st.cache_data(ttl=...)] around a function of no argument: an entry
    stored at time [t0] is served while [now < t0 + ttl]; otherwise the
    function runs and, when it returns, its value is stored.  An
    exception is not stored. *)
Definition cache_data {A} (ttl : Z)
    (slot : world -> option (Z * A))
    (set_slot : option (Z * A) -> world -> world)
    (now : Z) (f : M A) : M A :=
  let run :=
    let* v := f in
    let* _ := modify (set_slot (Some (now, v))) in
    ret v in
  let* entry := gets slot in
  match entry with
  | Some (t0, v) => if now <? t0 + ttl then ret v else run
  | None => run
  end.

(** ** The calendar: [datetime.utcfromtimestamp(ms / 1000).strftime("%d/%m/%Y")]

    A whole number of milliseconds is turned into seconds by a float
    division and then rounded to microseconds; inside the years that
    [datetime] supports neither rounding moves the instant across a day
    boundary, so the day is [ms / 86400000], rounded down. *)

Module Calendar.

Definition MS_PER_DAY : Z := 86400000.

(** Days since 1970-01-01 of 0001-01-01 and of 9999-12-31: [datetime]
    raises outside of the years 1 to 9999. *)
Definition MIN_DAY : Z := -719162.
Definition MAX_DAY : Z := 2932896.

(** Year, month and day of a day number (proleptic Gregorian). *)
Definition civil_from_days (days : Z) : Z * Z * Z :=
  let z := days + 719468 in
  let era := z / 146097 in
  let doe := z - era * 146097 in
  let yoe := (doe - doe / 1460 + doe / 36524 - doe / 146096) / 365 in
  let doy := doe - (365 * yoe + yoe / 4 - yoe / 100) in
  let mp := (5 * doy + 2) / 153 in
  let d := doy - (153 * mp + 2) / 5 + 1 in
  let m := if mp <? 10 then mp + 3 else mp - 9 in
  let y := yoe + era * 400 + (if m <=? 2 then 1 else 0) in
  (y, m, d).

Definition utcfromtimestamp_ms (ms : Z) : option (Z * Z * Z) :=
  let days := ms / MS_PER_DAY in
  if (MIN_DAY <=? days) && (days <=? MAX_DAY)
  then Some (civil_from_days days)
  else None.

Definition digit (n : Z) : ascii := ascii_of_nat (48 + Z.to_nat (n mod 10)).

Definition pad2 (n : Z) : string :=
  String (digit (n / 10)) (String (digit n) EmptyString).

(** [%Y] as the C library under CPython prints it: the year in decimal,
    without padding, so that the year 999 reads [999] and the year 1 reads
    [1]. [datetime] has the years 1 to 9999. *)
Definition decimal_year (y : Z) : string :=
  if y <? 10 then String (digit y) EmptyString
  else if y <? 100 then pad2 y
  else if y <? 1000 then String (digit (y / 100)) (pad2 y)
  else String (digit (y / 1000)) (String (digit (y / 100)) (pad2 y)).

(** ["%d/%m/%Y"]: day and month on two digits, the year as it comes. *)
Definition strftime_dmY (ymd : Z * Z * Z) : string :=
  let '(y, m, d) := ymd in
  pad2 d +:+ "/" +:+ pad2 m +:+ "/" +:+ decimal_year y.

Definition is_digit (c : ascii) : bool :=
  let n := nat_of_ascii c in (48 <=? n)%nat && (n <=? 57)%nat.

Definition is_slash (c : ascii) : bool := Ascii.eqb c "/"%char.

(** One to four digits. *)
Definition is_year (cs : list ascii) : bool :=
  (1 <=? length cs)%nat && (length cs <=? 4)%nat && forallb is_digit cs.

(** The shape of a date: two digits, a slash, two digits, a slash and a
    year of one to four digits. *)
Definition is_dmY (s : string) : bool :=
  match Stdlib.Strings.String.list_ascii_of_string s with
  | d1 :: d2 :: s1 :: m1 :: m2 :: s2 :: year =>
      is_digit d1 && is_digit d2 && is_slash s1 && is_digit m1 && is_digit m2
      && is_slash s2 && is_year year
  | _ => false
  end.

(** The same with the year on four digits: [dd/mm/yyyy]. *)
Definition is_dmY4 (s : string) : bool :=
  is_dmY s && (Stdlib.Strings.String.length s =? 10)%nat.

(** A year, a month and a day that [datetime] accepts (the length of the
    month left aside). *)
Definition is_date (ymd : Z * Z * Z) : Prop :=
  let '(y, m, d) := ymd in 1 <= y <= 9999 /\ 1 <= m <= 12 /\ 1 <= d <= 31.

End Calendar.

(** ** What Python and pandas bring

    The parsers of text are not part of the script; the development is
    parametric in them. *)
Class Runtime := {
  (** [float(s)] on a [str]; [None] when it raises [ValueError]. *)
  py_float : string -> option float;
  (** The number read by [pd.to_numeric] in a [str]: an integer when the
      text is one, a float otherwise; [None] when the text is not a
      number. *)
  pd_numeric : string -> option number;
  (** One element of [pd.to_datetime(column, unit="ms")]; [None] when the
      conversion raises. *)
  pd_to_datetime_ms : jv -> option datetime64;
}.

Section Program.

Context `{RT : Runtime}.

Definition float_ (s : string) : M float :=
  match py_float s with
  | Some x => ret x
  | None => raise ValueError
  end.

(** *** Fetch functions *)

Definition is_usdt_perpetual (s : symbol_info) : bool :=
  bool_decide (quoteAsset s = "USDT"%string)
  && bool_decide (contractType s = "PERPETUAL"%string)
  && bool_decide (status s = "TRADING"%string).

(** The body of [fetch_exchange_symbols], without its decorator. *)
Definition fetch_exchange_symbols_body (e : env) : M (list symbol_info) :=
  let* r := requests_get GET_exchangeInfo (EXCHANGE_INFO (net e)) in
  let* _ := raise_for_status r in
  let* data := r_json r in
  ret (filter (fun s => is_usdt_perpetual s = true) data).

Definition fetch_exchange_symbols (e : env) : M (list symbol_info) :=
  cache_data 300 memo_symbols set_memo_symbols (now e)
    (fetch_exchange_symbols_body e).

Definition fetch_all_tickers_24h_body (e : env) : M (list ticker) :=
  let* r := requests_get GET_ticker_24hr (TICKER_24H (net e)) in
  let* _ := raise_for_status r in
  r_json r.

Definition fetch_all_tickers_24h (e : env) : M (list ticker) :=
  cache_data 12 memo_tickers set_memo_tickers (now e)
    (fetch_all_tickers_24h_body e).

(** *** Candles *)

(** One cell as [pd.to_numeric] reads it: an [int] is itself, a text is
    read as a number, and [None] or a text that is no number is missing. *)
Definition read_number (v : jv) : option number :=
  match v with
  | JInt z => Some (NInt z)
  | JStr s => pd_numeric s
  | JNull => None
  end.

Definition INT64_MIN : Z := - 2 ^ 63.
Definition INT64_MAX : Z := 2 ^ 63 - 1.
Definition UINT64_MAX : Z := 2 ^ 64 - 1.

Definition fits_int64 (r : option number) : bool :=
  match r with
  | Some (NInt z) => (INT64_MIN <=? z) && (z <=? INT64_MAX)
  | _ => false
  end.

Definition fits_uint64 (r : option number) : bool :=
  match r with
  | Some (NInt z) => (0 <=? z) && (z <=? UINT64_MAX)
  | _ => false
  end.

(** The number as a float, an integer rounded to the nearest one. *)
Definition float_of (n : number) : float :=
  match n with
  | NInt z => PyFloat.of_Z z
  | NFloat x => x
  end.

(** The same for a cell, a missing one being NaN. *)
Definition to_float (r : option number) : float :=
  match r with
  | Some n => float_of n
  | None => PrimFloat.nan
  end.

(** The columns whose integers are kept: every cell is an integer of the
    range of [int64], or every cell is one of the range of [uint64]. *)
Definition keeps_integers (col : list jv) : bool :=
  forallb (fun v => fits_int64 (read_number v)) col
  || forallb (fun v => fits_uint64 (read_number v)) col.

(** [pd.to_numeric(column, errors="coerce")]: a column of integers that
    fit in 64 bits keeps them as they are; any other column becomes a
    column of floats, where an integer is rounded to the nearest float
    and a cell that is no number becomes NaN instead of raising. *)
Definition to_numeric_coerce (col : list jv) : list number :=
  if keeps_integers col
  then map (fun v => default (NFloat PrimFloat.nan) (read_number v)) col
  else map (fun v => NFloat (to_float (read_number v))) col.

(** [isna]: the marker of a missing value in a numeric column is NaN. *)
Definition isna (n : number) : bool :=
  match n with
  | NInt _ => false
  | NFloat x => PyFloat.is_nan x
  end.

(** The wire values [pd.to_numeric] reads as numbers. *)
Definition valid_number (v : jv) : bool :=
  match v with
  | JInt _ => true
  | JStr s => match pd_numeric s with Some _ => true | None => false end
  | JNull => false
  end.

Definition to_datetime_ms (v : jv) : outcome datetime64 :=
  match pd_to_datetime_ms v with
  | Some t => Returned t
  | None => Raised ValueError
  end.

(** A whole column: the first element that raises stops the conversion. *)
Fixpoint to_datetime_column (col : list jv) : outcome (list datetime64) :=
  match col with
  | [] => Returned []
  | v :: rest =>
      match to_datetime_ms v with
      | Raised e => Raised e
      | Returned t =>
          match to_datetime_column rest with
          | Raised e => Raised e
          | Returned ts => Returned (t :: ts)
          end
      end
  end.

(** Cell [i] of a raw line; pandas fills a short line with [None]. *)
Definition cell (line : list jv) (i : nat) : jv := nth i line JNull.

Definition width (arr : list (list jv)) : nat :=
  foldr (fun line w => Nat.max (length line) w) 0%nat arr.

(** Column [i] of the raw answer. *)
Definition column (arr : list (list jv)) (i : nat) : list jv :=
  map (fun line => cell line i) arr.

(** One line of the frame, from its raw line and its cells in the
    converted columns. *)
Definition make_candle (line : list jv) (ot : datetime64)
    (o h l c v : number) (ct : datetime64) : candle :=
  {| openTime := ot;
     open := o;
     high := h;
     low := l;
     close := c;
     volume := v;
     closeTime := ct;
     quoteAssetVolume := cell line 7;
     nbrTrades := cell line 8;
     takerBuyBase := cell line 9;
     takerBuyQuote := cell line 10;
     ignore := cell line 11 |}.

(** The lines of a frame whose columns are given. *)
Fixpoint zip_candles (arr : list (list jv)) (ots : list datetime64)
    (opens highs lows closes volumes : list number) (cts : list datetime64)
  : list candle :=
  match arr, ots, opens, highs, lows, closes, volumes, cts with
  | line :: arr', ot :: ots', o :: opens', h :: highs', l :: lows',
    c :: closes', v :: volumes', ct :: cts' =>
      make_candle line ot o h l c v ct
      :: zip_candles arr' ots' opens' highs' lows' closes' volumes' cts'
  | _, _, _, _, _, _, _, _ => []
  end.

(** The frame built from the answer of the exchange: twelve named
    columns (pandas refuses data of another width, except no data at
    all), five of them made numeric, two of them made instants. *)
Definition klines_frame (arr : list (list jv)) : outcome (list candle) :=
  if negb (length arr =? 0)%nat && negb (width arr =? 12)%nat
  then Raised ValueError
  else
    let opens := to_numeric_coerce (column arr 1) in
    let highs := to_numeric_coerce (column arr 2) in
    let lows := to_numeric_coerce (column arr 3) in
    let volumes := to_numeric_coerce (column arr 5) in
    let closes := to_numeric_coerce (column arr 4) in
    match to_datetime_column (column arr 0) with
    | Raised e => Raised e
    | Returned ots =>
        match to_datetime_column (column arr 6) with
        | Raised e => Raised e
        | Returned cts =>
            Returned (zip_candles arr ots opens highs lows closes volumes cts)
        end
    end.

(** The key of the candle cache: [f"{symbol}_{interval}"]. *)
Definition cache_key (symbol interval : string) : string :=
  symbol +:+ "_" +:+ interval.

Definition get_klines_cached (e : env) (symbol interval : string) (limit : Z)
  : M (list candle) :=
  let key := cache_key symbol interval in
  let* cache := gets (fun w => candle_cache (session w)) in
  match cache !! key with
  | Some df => ret df
  | None =>
      let* r := requests_get (GET_klines symbol interval limit None)
                  (KLINES (net e) symbol interval limit None) in
      let* _ := raise_for_status r in
      let* arr := r_json r in
      let* df := lift (klines_frame arr) in
      let* _ := modify (fun w =>
                  set_candle_cache (<[key := df]> (candle_cache (session w))) w) in
      ret df
  end.

(** *** The filter: the [need_reload] block *)

(** [l[:n]]: a negative [n] counts from the end. *)
Definition slice_to {A} (l : list A) (n : Z) : list A :=
  if 0 <=? n then take (Z.to_nat n) l
  else take (length l - Z.to_nat (- n)) l.

(** [{t["symbol"]: t for t in tickers}]: a later ticker replaces an
    earlier one of the same symbol. *)
Definition make_tick_map (tickers : list ticker) : gmap string ticker :=
  foldl (fun m t => <[tk_symbol t := t]> m) ∅ tickers.

(** [x[0]] on a list. *)
Definition getitem0 {A} (l : list A) : M A :=
  match l with
  | x :: _ => ret x
  | [] => raise IndexError
  end.

(** [datetime.utcfromtimestamp(first_ts / 1000).strftime("%d/%m/%Y")]. *)
Definition listed_of_ts (first_ts : jv) : M string :=
  match first_ts with
  | JInt ms =>
      match Calendar.utcfromtimestamp_ms ms with
      | Some ymd => ret (Calendar.strftime_dmY ymd)
      | None => raise ValueError
      end
  | JStr _ | JNull => raise TypeError
  end.

(** The [try] block of the loop: the first daily candle ever. *)
Definition listing_lookup (e : env) (sym : string) : M string :=
  try_except
    (let* r := requests_get (GET_klines sym "1d" 1 (Some 0))
                 (KLINES (net e) sym "1d" 1 (Some 0)) in
     let* nonempty :=
       if status_code r =? 200
       then let* arr := r_json r in ret (0 <? length arr)%nat
       else ret false in
     if nonempty then
       let* arr := r_json r in
       let* line := getitem0 arr in
       let* first_ts := getitem0 line in
       listed_of_ts first_ts
     else ret "N/A"%string)
    (ret "N/A"%string).

(** One turn of [for i, sym in enumerate(symbol_list)]. *)
Definition filter_step (e : env) (tick_map : gmap string ticker)
    (rows : list row) (sym : string) : M (list row) :=
  match tick_map !! sym with
  | None => ret rows
  | Some t =>
      let* pct := float_ (priceChangePercent t) in
      if PyFloat.ge0 pct then ret rows
      else
        let* listed := listing_lookup e sym in
        let* last := float_ (lastPrice t) in
        let* vol := float_ (quoteVolume t) in
        ret (rows ++ [ {| symbol := sym; pct_24h := pct; last_price := last;
                          volume_USDT := vol; listed_date := listed |} ])
  end.

Fixpoint filter_loop (e : env) (tick_map : gmap string ticker)
    (symbol_list : list string) (rows : list row) : M (list row) :=
  match symbol_list with
  | [] => ret rows
  | sym :: rest =>
      let* rows' := filter_step e tick_map rows sym in
      filter_loop e tick_map rest rows'
  end.

(** [df.sort_values("% 24h")], ascending with the NaN last, as pandas
    orders a float column: the numbers are sorted, the lines without a
    number follow in their order of arrival.  Among equal numbers pandas
    promises no order; this one keeps the order of arrival. *)
Fixpoint insert_row (r : row) (sorted : list row) : list row :=
  match sorted with
  | [] => [r]
  | h :: t =>
      if PrimFloat.leb (pct_24h r) (pct_24h h) then r :: sorted
      else h :: insert_row r t
  end.

Definition sort_numbers (rows : list row) : list row :=
  foldr insert_row [] rows.

Definition has_number (r : row) : bool := negb (PyFloat.is_nan (pct_24h r)).

Definition nargsort (rows : list row) : list row :=
  sort_numbers (filter (fun r => has_number r = true) rows)
  ++ filter (fun r => ~ has_number r = true) rows.

Definition sort_values_pct_24h (df : DataFrame) : outcome DataFrame :=
  if bool_decide ("% 24h"%string ∈ columns df)
  then Returned {| columns := columns df; records := nargsort (records df) |}
  else Raised (KeyError "% 24h").

(** The block under [if need_reload:], in its three stages. *)

(** The metadata: fetched when the session has none or on the button. *)
Definition load_symbols (e : env) (refresh : bool) : M unit :=
  let* cached := gets (fun w => symbols_cache (session w)) in
  if negb (bool_decide (is_Some cached)) || refresh
  then let* fetched := fetch_exchange_symbols e in
       modify (set_symbols_cache (Some fetched))
  else ret tt.

(** The candidates, the tickers, the join and the filter. *)
Definition build_rows (e : env) (max_symbols : Z) : M (list row) :=
  let* cached := gets (fun w => symbols_cache (session w)) in
  match cached with
  | None => raise TypeError
  | Some all_symbols =>
      let symbols_info := slice_to all_symbols max_symbols in
      let symbol_list := map si_symbol symbols_info in
      let* tickers := fetch_all_tickers_24h e in
      let tick_map := make_tick_map tickers in
      filter_loop e tick_map symbol_list []
  end.

(** The table, sorted and renumbered, replaces ["filtered_df"]. *)
Definition store_result (rows : list row) : M unit :=
  let* df := lift (sort_values_pct_24h (DataFrame_of_rows rows)) in
  modify (set_filtered_df (Some df)).

Definition reload (e : env) (max_symbols : Z) (refresh : bool) : M unit :=
  let* _ := load_symbols e refresh in
  let* rows := build_rows e max_symbols in
  store_result rows.

(** *** One rerun of the script *)

(** The widgets: the sidebar, the symbol chosen under the table and the
    time frame chosen for the chart. *)
Record inputs := {
  max_symbols : Z;
  refresh : bool;
  auto_refresh : bool;
  selected : option string;
  chart_interval_label : string;
}.

Definition need_reload (i : inputs) : bool := refresh i || auto_refresh i.

Definition lookup_interval (label : string) : M string :=
  match List.find (fun kv => bool_decide (fst kv = label)) INTERVAL_MAP with
  | Some kv => ret (snd kv)
  | None => raise (KeyError label)
  end.

Definition script (e : env) (i : inputs) : M unit :=
  let* _ := if need_reload i then reload e (max_symbols i) (refresh i)
            else ret tt in
  let* df := gets (fun w => filtered_df (session w)) in
  match df with
  | None => ret tt                                     (* st.stop() *)
  | Some _ =>
      let* chart_interval := lookup_interval (chart_interval_label i) in
      match selected i with
      | Some sym =>
          if bool_decide (sym = ""%string) then ret tt
          else try_except
                 (let* _ := get_klines_cached e sym chart_interval 500 in ret tt)
                 (ret tt)                              (* st.error *)
      | None => ret tt
      end
  end.

(** *** The vocabulary of the statements *)

(** What a fetch makes of an answer: [requests.get], [raise_for_status]
    and [.json()] in a row. *)
Definition decode {B} (answer : reply B) : outcome B :=
  match answer with
  | GetRaises => Raised RequestException
  | Response r =>
      if (400 <=? status_code r) && (status_code r <? 600)
      then Raised (HTTPError (status_code r))
      else match json r with
           | Some b => Returned b
           | None => Raised JSONDecodeError
           end
  end.

(** The entry of a [st.cache_data] slot that is still served at [now]. *)
Definition fresh {A} (ttl now : Z) (slot : option (Z * A)) : option A :=
  match slot with
  | Some (t0, v) => if now <? t0 + ttl then Some v else None
  | None => None
  end.

Definition filter_symbols (data : list symbol_info) : list symbol_info :=
  filter (fun s => is_usdt_perpetual s = true) data.

(** What the [try] block evaluates to, answer by answer. *)
Definition listed_of_reply (answer : reply (list (list jv))) : string :=
  match answer with
  | GetRaises => "N/A"%string
  | Response r =>
      if status_code r =? 200 then
        match json r with
        | Some ((JInt ms :: _) :: _) =>
            match Calendar.utcfromtimestamp_ms ms with
            | Some ymd => Calendar.strftime_dmY ymd
            | None => "N/A"%string
            end
        | _ => "N/A"%string
        end
      else "N/A"%string
  end.

Definition listing_request (sym : string) : request :=
  GET_klines sym "1d" 1 (Some 0).

Definition make_row (sym : string) (pct last vol : float) (listed : string) : row :=
  {| symbol := sym; pct_24h := pct; last_price := last; volume_USDT := vol;
     listed_date := listed |}.

(** What one symbol contributes to [rows]: nothing, a row, or the
    [ValueError] of a text that [float] refuses. *)
Definition survivor (e : env) (tick_map : gmap string ticker) (sym : string)
  : outcome (option row) :=
  match tick_map !! sym with
  | None => Returned None
  | Some t =>
      match py_float (priceChangePercent t) with
      | None => Raised ValueError
      | Some pct =>
          if PyFloat.ge0 pct then Returned None
          else match py_float (lastPrice t), py_float (quoteVolume t) with
               | Some last, Some vol =>
                   Returned (Some (make_row sym pct last vol
                     (listed_of_reply (KLINES (net e) sym "1d" 1 (Some 0)))))
               | _, _ => Raised ValueError
               end
      end
  end.

Fixpoint survivors (e : env) (tick_map : gmap string ticker)
    (symbol_list : list string) : outcome (list row) :=
  match symbol_list with
  | [] => Returned []
  | sym :: rest =>
      match survivor e tick_map sym with
      | Raised x => Raised x
      | Returned o =>
          match survivors e tick_map rest with
          | Raised x => Raised x
          | Returned rs => Returned (option_list o ++ rs)
          end
      end
  end.

(** The loop only talks to the exchange: it leaves the session and the
    two decorated caches alone, and asks for listing dates of symbols of
    its list, in their order. *)
Definition lookups_only (symbol_list : list string) (w w' : world) : Prop :=
  session w' = session w /\
  memo_symbols w' = memo_symbols w /\
  memo_tickers w' = memo_tickers w /\
  exists syms, syms `sublist_of` symbol_list /\
               sent w' = sent w ++ map listing_request syms.

(** A symbol qualifies when the snapshot has its ticker and its percent
    change is not [>= 0]. *)
Definition qualifies (tick_map : gmap string ticker) (sym : string) (pct : float)
  : Prop :=
  exists t, tick_map !! sym = Some t /\
            py_float (priceChangePercent t) = Some pct /\
            PyFloat.ge0 pct = false.

(** The data model of the exchange: the percent change of a ticker is a
    signed decimal written as text, which [float] reads as a number and
    never as NaN. *)
Definition numeric_snapshot (tickers : list ticker) : Prop :=
  forall t x, t ∈ tickers ->
    py_float (priceChangePercent t) = Some x -> PyFloat.is_nan x = false.

(** A relation that holds between every two neighbours of a list. *)
Fixpoint chain (R : row -> row -> Prop) (l : list row) : Prop :=
  match l with
  | a :: (b :: _) as rest => R a b /\ chain R rest
  | _ => True
  end.

Definition le_pct (a b : row) : Prop :=
  PrimFloat.leb (pct_24h a) (pct_24h b) = true.

(** Ascending, the lines without a number last. *)
Definition le_pct_nan_last (a b : row) : Prop :=
  le_pct a b \/ PyFloat.is_nan (pct_24h b) = true.

Definition needs_fetch (rf : bool) (w : world) : bool :=
  negb (bool_decide (is_Some (symbols_cache (session w)))) || rf.

Definition sorted_frame (rows : list row) : DataFrame :=
  {| columns := row_keys; records := nargsort rows |}.

(** The snapshot that [fetch_all_tickers_24h] hands to a cycle that
    starts in [w]: the decorated cache when it is fresh, the exchange
    otherwise. *)
Definition snapshot (e : env) (w : world) : outcome (list ticker) :=
  match fresh 12 (now e) (memo_tickers w) with
  | Some v => Returned v
  | None => decode (TICKER_24H (net e))
  end.

(** The ways a listing-date lookup fails that the try block foresees: the
    request raises, the status is not 200, the body does not decode or is
    an empty array. *)
Definition lookup_fails (answer : reply (list (list jv))) : Prop :=
  answer = GetRaises \/
  exists r, answer = Response r /\
            (status_code r <> 200 \/ json r = None \/ json r = Some []).

(** A lookup that succeeds: status 200 and a first candle whose opening
    time is an instant of the calendar. *)
Definition lookup_succeeds (answer : reply (list (list jv))) (ymd : Z * Z * Z)
  : Prop :=
  exists r ms line arr,
    answer = Response r /\ status_code r = 200 /\
    json r = Some ((JInt ms :: line) :: arr) /\
    Calendar.utcfromtimestamp_ms ms = Some ymd.

Definition outcome_map {A B} (f : A -> B) (o : outcome A) : outcome B :=
  match o with
  | Returned a => Returned (f a)
  | Raised x => Raised x
  end.

(** Two exchanges that differ in their candles only. *)
Definition same_but_klines (e e' : env) : Prop :=
  now e' = now e /\
  EXCHANGE_INFO (net e') = EXCHANGE_INFO (net e) /\
  TICKER_24H (net e') = TICKER_24H (net e).

(** A candidate that the loop drops: the snapshot has no ticker for it,
    or its percent change is [>= 0]. *)
Definition dropped (tick_map : gmap string ticker) (sym : string) : Prop :=
  tick_map !! sym = None \/
  exists t pct, tick_map !! sym = Some t /\
                py_float (priceChangePercent t) = Some pct /\
                PyFloat.ge0 pct = true.

(** The requests sent between two states of the process. *)
Definition requests_during (w w' : world) : list request :=
  drop (length (sent w)) (sent w').

(** An entry of the candle cache stays: nothing deletes or replaces it. *)
Definition keeps_candles (w w' : world) : Prop :=
  forall key df, candle_cache (session w) !! key = Some df ->
                 candle_cache (session w') !! key = Some df.

(** The session goes on: rerun after rerun of the script, each with its
    own clock, answers of the exchange and widget values.  A rerun that
    raises ends there; the session state it leaves is kept. *)
Fixpoint reruns (runs : list (env * inputs)) (w : world) : world :=
  match runs with
  | [] => w
  | (e, i) :: rest => reruns rest (snd (script e i w))
  end.

Fixpoint has_underscore (s : string) : bool :=
  match s with
  | EmptyString => false
  | String c rest => Ascii.eqb c "_"%char || has_underscore rest
  end.

(** The wire values of [INTERVAL_MAP]: what the chart passes as interval. *)
Definition is_interval (i : string) : Prop := i ∈ map snd INTERVAL_MAP.

(** [numeric_cols]: the columns given to [pd.to_numeric], each with its
    place in a raw line. *)
Definition numeric_cols : list (nat * (candle -> number)) :=
  [ (1%nat, open); (2%nat, high); (3%nat, low); (5%nat, volume);
    (4%nat, close) ].

End Program.

(** *** More vocabulary: the session as a whole *)

Section Session.

Context `{RT : Runtime}.

(** [INTERVAL_MAP[label]]. *)
Definition interval_of (label : string) : option string :=
  snd <$> List.find (fun kv => bool_decide (fst kv = label)) INTERVAL_MAP.

(** The labels of the two time-frame widgets. *)
Definition is_label (label : string) : Prop := label ∈ map fst INTERVAL_MAP.

(** The first half of a rerun: the block under [if need_reload:], or
    nothing. *)
Definition after_reload (e : env) (i : inputs) (w : world) : outcome unit * world :=
  if need_reload i then reload e (max_symbols i) (refresh i) w
  else (Returned tt, w).

(** The last ticker of a snapshot that carries a symbol. *)
Definition last_with_symbol (tickers : list ticker) (s : string) (t : ticker)
  : Prop :=
  exists before after,
    tickers = before ++ t :: after /\ tk_symbol t = s /\
    s ∉ map tk_symbol after.

(** A row whose numbers are the texts of a ticker, read by [float], and
    whose date is what the listing lookup of its symbol gives. *)
Definition row_of_ticker (e : env) (t : ticker) (r : row) : Prop :=
  py_float (priceChangePercent t) = Some (pct_24h r) /\
  py_float (lastPrice t) = Some (last_price r) /\
  py_float (quoteVolume t) = Some (volume_USDT r) /\
  listed_date r = listed_of_reply (KLINES (net e) (symbol r) "1d" 1 (Some 0)).

(** A ticker that stops the loop: [float] refuses its percent change,
    or accepts it, finds it not [>= 0], and refuses the last price or
    the volume. *)
Definition refused (t : ticker) : Prop :=
  py_float (priceChangePercent t) = None \/
  exists pct, py_float (priceChangePercent t) = Some pct /\
              PyFloat.ge0 pct = false /\
              (py_float (lastPrice t) = None \/ py_float (quoteVolume t) = None).

(** The requests that a cycle sends before its loop: the metadata, when
    it is due and not served from the cache, and the snapshot likewise. *)
Definition is_prelude (reqs : list request) : Prop :=
  reqs = [] \/ reqs = [GET_exchangeInfo] \/ reqs = [GET_ticker_24hr] \/
  reqs = [GET_exchangeInfo; GET_ticker_24hr].

(** The stored table, when there is one: the five columns, at least one
    row, no percent change [>= 0], ascending with the NaN last. *)
Definition table_ok (w : world) : Prop :=
  forall df, filtered_df (session w) = Some df ->
    columns df = row_keys /\ records df <> [] /\
    Forall (fun r => PyFloat.ge0 (pct_24h r) = false) (records df) /\
    chain le_pct_nan_last (records df).

(** The metadata held by the session and by the decorated cache: trading
    perpetual contracts quoted in USDT only. *)
Definition symbols_ok (w : world) : Prop :=
  (forall l, symbols_cache (session w) = Some l ->
             Forall (fun s => is_usdt_perpetual s = true) l) /\
  (forall t l, memo_symbols w = Some (t, l) ->
               Forall (fun s => is_usdt_perpetual s = true) l).

(** The keys of the candle cache: a symbol that is not empty, glued to a
    wire interval of [INTERVAL_MAP]. *)
Definition keys_ok (w : world) : Prop :=
  forall key, is_Some (candle_cache (session w) !! key) ->
    exists sym i, key = cache_key sym i /\ is_interval i /\ sym <> ""%string.

End Session.

(** ** An executable runtime

    [float] and the pandas readers on the texts that the concrete runs
    use: an optional sign, digits, an optional point and digits, and the
    words [nan] and [inf].  The quotient of the digits by the power of
    ten is rounded once, as Python rounds, as long as both are below
    2^53. *)

Module Sample.

Definition is_digit (c : ascii) : bool :=
  let n := nat_of_ascii c in (48 <=? n)%nat && (n <=? 57)%nat.

Definition digit_value (c : ascii) : Z := Z.of_nat (nat_of_ascii c) - 48.

(** Digits, then maybe a point and digits: the whole number read
    without the point, and the count of digits after the point. *)
Fixpoint read_digits (s : string) (seen_point : bool) (m : Z) (k : Z)
  : option (Z * Z) :=
  match s with
  | EmptyString => Some (m, k)
  | String c rest =>
      if is_digit c
      then read_digits rest seen_point (10 * m + digit_value c)
             (if seen_point then k + 1 else k)
      else if Ascii.eqb c "."%char && negb seen_point
           then read_digits rest true m k
           else None
  end.

Definition unsigned_literal (s : string) : option float :=
  if String.eqb s "nan" then Some PrimFloat.nan
  else if String.eqb s "inf" then Some PrimFloat.infinity
  else match s with
       | EmptyString | String "."%char EmptyString => None
       | _ => match read_digits s false 0 0 with
              | Some (m, k) =>
                  Some (PrimFloat.div (PyFloat.of_Z m) (PyFloat.of_Z (10 ^ k)))
              | None => None
              end
       end.

Definition float_literal (s : string) : option float :=
  match s with
  | String "-"%char rest => option_map PrimFloat.opp (unsigned_literal rest)
  | String "+"%char rest => unsigned_literal rest
  | _ => unsigned_literal s
  end.

(** Digits only, and at least one. *)
Fixpoint read_integer (s : string) (m : Z) : option Z :=
  match s with
  | EmptyString => Some m
  | String c rest =>
      if is_digit c then read_integer rest (10 * m + digit_value c) else None
  end.

Definition unsigned_integer (s : string) : option Z :=
  match s with
  | EmptyString => None
  | _ => read_integer s 0
  end.

Definition integer_literal (s : string) : option Z :=
  match s with
  | String "-"%char rest => option_map Z.opp (unsigned_integer rest)
  | String "+"%char rest => unsigned_integer rest
  | _ => unsigned_integer s
  end.

(** A text that is an integer reads as that integer, another number as a
    float. *)
Definition numeric_literal (s : string) : option number :=
  match integer_literal s with
  | Some z => Some (NInt z)
  | None => option_map NFloat (float_literal s)
  end.

(** Milliseconds to nanoseconds, inside the range of [datetime64[ns]]. *)
Definition datetime_ms (v : jv) : option datetime64 :=
  match v with
  | JInt ms =>
      if (- 2 ^ 63 <? ms * 1000000) && (ms * 1000000 <? 2 ^ 63)
      then Some (Timestamp (ms * 1000000))
      else None
  | JNull => Some NaT
  | JStr _ => None
  end.

#[export] Instance runtime : Runtime :=
  {| py_float := float_literal;
     pd_numeric := numeric_literal;
     pd_to_datetime_ms := datetime_ms |}.

End Sample.

(** ** Concrete answers of the exchange *)

Definition listing (s : string) : symbol_info :=
  {| si_symbol := s; quoteAsset := "USDT"; contractType := "PERPETUAL";
     status := "TRADING" |}.

Definition quote (s pct : string) : ticker :=
  {| tk_symbol := s; priceChangePercent := pct; lastPrice := "1.5";
     quoteVolume := "1000" |}.

Definition ok {B} (b : B) : reply B :=
  Response {| status_code := 200; json := Some b |}.

Definition http_error {B} (code : Z) : reply B :=
  Response {| status_code := code; json := None |}.

(** One daily candle that opened on 10 September 2019. *)
Definition first_candle : list jv :=
  [ JInt 1568102400000; JStr "10000.0"; JStr "10412.6"; JStr "9950.0";
    JStr "10391.6"; JStr "3096.3"; JInt 1568188799999; JStr "31567796.4";
    JInt 4000; JStr "1800.1"; JStr "18000000.2"; JStr "0" ].

(** The same candle with a high that is not a number. *)
Definition broken_candle : list jv :=
  [ JInt 1568102400000; JStr "10000.0"; JStr "n/a"; JStr "9950.0";
    JStr "10391.6"; JStr "3096.3"; JInt 1568188799999; JStr "31567796.4";
    JInt 4000; JStr "1800.1"; JStr "18000000.2"; JStr "0" ].

(** A candle whose prices are texts of whole numbers and whose volume is
    an integer that no float holds, [2 ^ 53 + 1]. *)
Definition whole_candle : list jv :=
  [ JInt 1568102400000; JStr "10000"; JStr "10412"; JStr "9950";
    JStr "10391"; JInt 9007199254740993; JInt 1568188799999;
    JStr "31567796.4"; JInt 4000; JStr "1800.1"; JStr "18000000.2";
    JStr "0" ].

(** The next one, with a high that is not a number. *)
Definition gap_candle : list jv :=
  [ JInt 1568188800000; JStr "10391.5"; JStr "n/a"; JStr "9900";
    JStr "10100"; JInt 3096; JInt 1568275199999; JStr "31567796.4";
    JInt 4000; JStr "1800.1"; JStr "18000000.2"; JStr "0" ].

(** Three perpetual contracts; AAA lost 5 %, BBB won 2 %, CCC lost 1 %.
    The candles of AAA time out, those of the others arrive. *)
Definition exchange_A : network :=
  {| EXCHANGE_INFO := ok [listing "AAA"; listing "BBB"; listing "CCC"];
     TICKER_24H := ok [quote "AAA" "-5.0"; quote "BBB" "2.0"; quote "CCC" "-1.0"];
     KLINES := fun s _ _ _ =>
       if String.eqb s "AAA" then GetRaises else ok [first_candle] |}.

Definition env_A : env := {| now := 1000; net := exchange_A |}.

Definition world_A : world :=
  snd (reload (RT := Sample.runtime) env_A 3 true new_world).

Definition row_AAA : row :=
  {| symbol := "AAA"; pct_24h := (-5)%float; last_price := 1.5%float;
     volume_USDT := 1000%float; listed_date := "N/A" |}.

Definition row_CCC : row :=
  {| symbol := "CCC"; pct_24h := (-1)%float; last_price := 1.5%float;
     volume_USDT := 1000%float; listed_date := "10/09/2019" |}.

(** Outside of what the exchange sends: a percent change of BBB that
    [float] reads as NaN. *)
Definition exchange_NaN : network :=
  {| EXCHANGE_INFO := ok [listing "AAA"; listing "BBB"];
     TICKER_24H := ok [quote "AAA" "-1.0"; quote "BBB" "nan"];
     KLINES := fun _ _ _ _ => ok [first_candle] |}.

Definition env_NaN : env := {| now := 1000; net := exchange_NaN |}.

Definition world_NaN : world :=
  snd (reload (RT := Sample.runtime) env_NaN 200 true new_world).

Definition row_minus_one : row :=
  {| symbol := "AAA"; pct_24h := (-1)%float; last_price := 1.5%float;
     volume_USDT := 1000%float; listed_date := "10/09/2019" |}.

Definition row_nan : row :=
  {| symbol := "BBB"; pct_24h := PrimFloat.nan; last_price := 1.5%float;
     volume_USDT := 1000%float; listed_date := "10/09/2019" |}.

(** Later, when the caches have expired, the exchange answers 503 to the
    metadata request. *)
Definition env_503 : env :=
  {| now := 2000;
     net := {| EXCHANGE_INFO := http_error 503;
               TICKER_24H := TICKER_24H exchange_A;
               KLINES := KLINES exchange_A |} |}.

(** Ten time units after the cycle of [env_A] the exchange lists a fourth
    contract and the user presses the refresh button. *)
Definition env_A_later : env :=
  {| now := 1010;
     net := {| EXCHANGE_INFO :=
                 ok [listing "AAA"; listing "BBB"; listing "CCC"; listing "DDD"];
               TICKER_24H := TICKER_24H exchange_A;
               KLINES := KLINES exchange_A |} |}.

(** The candles of BTCUSDT, one line; the exchange of a later rerun
    would answer with no line at all. *)
Definition env_chart : env :=
  {| now := 1000;
     net := {| EXCHANGE_INFO := EXCHANGE_INFO exchange_A;
               TICKER_24H := TICKER_24H exchange_A;
               KLINES := fun _ _ _ _ => ok [broken_candle] |} |}.

Definition env_chart_later : env :=
  {| now := 5000;
     net := {| EXCHANGE_INFO := EXCHANGE_INFO exchange_A;
               TICKER_24H := TICKER_24H exchange_A;
               KLINES := fun _ _ _ _ => ok [] |} |}.

Definition chart_inputs : inputs :=
  {| max_symbols := 200; refresh := true; auto_refresh := false;
     selected := Some "CCC"%string; chart_interval_label := "H4" |}.

Definition first_series : list candle :=
  match fst (get_klines_cached (RT := Sample.runtime)
               env_chart "BTCUSDT" "1h" 500 new_world) with
  | Returned df => df
  | Raised _ => []
  end.

Definition whole_series : list candle :=
  match klines_frame (RT := Sample.runtime) [whole_candle; gap_candle] with
  | Returned df => df
  | Raised _ => []
  end.

Definition world_chart : world :=
  snd (get_klines_cached (RT := Sample.runtime)
         env_chart "BTCUSDT" "1h" 500 new_world).

(** Every contract went up. *)
Definition env_up : env :=
  {| now := 2000;
     net := {| EXCHANGE_INFO := EXCHANGE_INFO exchange_A;
               TICKER_24H := ok [quote "AAA" "0.5"; quote "CCC" "0.0"];
               KLINES := KLINES exchange_A |} |}.

(** An exchange that also lists a contract quoted in BUSD, a quarterly
    contract and a contract that is being settled. *)
Definition exchange_mixed : network :=
  {| EXCHANGE_INFO := ok
       [ listing "AAA";
         {| si_symbol := "AAABUSD"; quoteAsset := "BUSD";
            contractType := "PERPETUAL"; status := "TRADING" |};
         {| si_symbol := "BBB_240628"; quoteAsset := "USDT";
            contractType := "CURRENT_QUARTER"; status := "TRADING" |};
         {| si_symbol := "OLD"; quoteAsset := "USDT";
            contractType := "PERPETUAL"; status := "SETTLING" |};
         listing "CCC" ];
     TICKER_24H := TICKER_24H exchange_A;
     KLINES := KLINES exchange_A |}.

Definition env_mixed : env := {| now := 1000; net := exchange_mixed |}.

(** The snapshot of [exchange_A]. *)
Definition tickers_A : list ticker :=
  [quote "AAA" "-5.0"; quote "BBB" "2.0"; quote "CCC" "-1.0"].

(** The table of [world_A]. *)
Definition table_A : DataFrame :=
  {| columns := row_keys; records := [row_AAA; row_CCC] |}.

(** Later, the percent change of CCC is not a number at all. *)
Definition env_bad : env :=
  {| now := 2000;
     net := {| EXCHANGE_INFO := EXCHANGE_INFO exchange_A;
               TICKER_24H := ok [quote "AAA" "-5.0"; quote "CCC" "n/a"];
               KLINES := KLINES exchange_A |} |}.

(** The chart of AAA, whose candles time out, and a rerun that only
    looks at the chart of CCC. *)
Definition chart_inputs_AAA : inputs :=
  {| max_symbols := 3; refresh := true; auto_refresh := false;
     selected := Some "AAA"%string; chart_interval_label := "H1" |}.

Definition idle_inputs : inputs :=
  {| max_symbols := 3; refresh := false; auto_refresh := false;
     selected := Some "CCC"%string; chart_interval_label := "H4" |}.

(** Candles of two cells. *)
Definition env_short : env :=
  {| now := 1000;
     net := {| EXCHANGE_INFO := EXCHANGE_INFO exchange_A;
               TICKER_24H := TICKER_24H exchange_A;
               KLINES := fun _ _ _ _ => ok [[JInt 1568102400000; JStr "1.0"]] |} |}.

(** A session of one rerun: the button, then the chart of CCC in H4. *)
Definition session_A : world :=
  reruns (RT := Sample.runtime) [(env_A, chart_inputs)] new_world.

(** * Properties *)

(** ** The order of floats *)

Module FloatOrder.

Import PyFloat.

Lemma SFcompare_swap x y c :
  SFcompare x y = Some c -> SFcompare y x = Some (CompOpp c).
Proof.
  destruct x as [sx|sx| |sx mx ex], y as [sy|sy| |sy my ey]; simpl;
    try discriminate;
    try (intros [= <-]; repeat match goal with
                               | b : bool |- _ => destruct b
                               end; reflexivity).
  intros [= <-]. f_equal.
  change (Pos.compare_cont Eq my mx) with (my ?= mx)%positive.
  change (Pos.compare_cont Eq mx my) with (mx ?= my)%positive.
  rewrite (Z.compare_antisym ex ey), (Pos.compare_antisym mx my).
  destruct sx, sy; simpl; try reflexivity;
    destruct (ex ?= ey); simpl; try reflexivity;
    destruct (mx ?= my)%positive; reflexivity.
Qed.

Lemma SFcompare_nan_l x y :
  SFcompare x y = None -> SFeqb x x = false \/ SFeqb y y = false.
Proof.
  destruct x as [sx|sx| |sx mx ex], y as [sy|sy| |sy my ey]; simpl;
    try discriminate; auto;
    repeat match goal with b : bool |- _ => destruct b end; discriminate.
Qed.

(** On numbers the order is total: when [x <= y] is false, [y < x]. *)
Lemma leb_false_ltb x y :
  is_nan x = false -> is_nan y = false ->
  PrimFloat.leb x y = false -> PrimFloat.ltb y x = true.
Proof.
  unfold is_nan, PrimFloat.is_nan.
  rewrite !FloatAxioms.eqb_spec, FloatAxioms.leb_spec, FloatAxioms.ltb_spec.
  intros Hx Hy. apply negb_false_iff in Hx, Hy.
  unfold SFleb, SFltb.
  destruct (SFcompare (Prim2SF x) (Prim2SF y)) as [c|] eqn:E.
  - rewrite (SFcompare_swap _ _ _ E). destruct c; simpl; congruence.
  - apply SFcompare_nan_l in E. destruct E; congruence.
Qed.

Lemma ltb_leb x y : PrimFloat.ltb x y = true -> PrimFloat.leb x y = true.
Proof.
  rewrite FloatAxioms.leb_spec, FloatAxioms.ltb_spec. unfold SFleb, SFltb.
  destruct (SFcompare _ _) as [[]|]; congruence.
Qed.

(** A number that is not [>= 0] is [< 0]. *)
Lemma not_ge0_lt0 x : is_nan x = false -> ge0 x = false -> lt0 x = true.
Proof.
  intros Hx H. apply leb_false_ltb; [reflexivity | exact Hx | exact H].
Qed.

Lemma lt0_not_ge0 x : lt0 x = true -> ge0 x = false.
Proof.
  unfold lt0, ge0. rewrite FloatAxioms.leb_spec, FloatAxioms.ltb_spec.
  unfold SFleb, SFltb.
  destruct (SFcompare (Prim2SF x) _) as [c|] eqn:E; [|discriminate].
  rewrite (SFcompare_swap _ _ _ E). destruct c; simpl; congruence.
Qed.

(** Nothing compares with a NaN. *)
Lemma nan_leb_r x y : is_nan y = true -> PrimFloat.leb x y = false.
Proof.
  unfold is_nan, PrimFloat.is_nan.
  rewrite FloatAxioms.eqb_spec, FloatAxioms.leb_spec. intros H.
  apply negb_true_iff in H. unfold SFleb, SFeqb in *.
  destruct (Prim2SF y) as [s|s| |s m e]; simpl in H.
  - discriminate.
  - destruct s; discriminate.
  - destruct (Prim2SF x); reflexivity.
  - change (Pos.compare_cont Eq m m) with (m ?= m)%positive in H.
    rewrite Z.compare_refl, Pos.compare_refl in H.
    destruct s; discriminate.
Qed.

End FloatOrder.

(** ** The shape of a formatted date *)

Module CalendarFacts.

Import Calendar.

Lemma digit_is_digit n : is_digit (digit n) = true.
Proof.
  unfold digit. pose proof (Z.mod_pos_bound n 10 ltac:(lia)) as H.
  assert (E : exists k, (k < 10)%nat /\ Z.to_nat (n mod 10) = k)
    by (exists (Z.to_nat (n mod 10)); split; [lia | reflexivity]).
  destruct E as (k & Hk & ->).
  do 10 (destruct k as [|k]; [reflexivity|]). lia.
Qed.

Lemma civil_from_days_range days :
  MIN_DAY <= days <= MAX_DAY -> is_date (civil_from_days days).
Proof.
  unfold civil_from_days, MIN_DAY, MAX_DAY, is_date. intros Hdays.
  set (z := days + 719468). set (era := z / 146097).
  set (doe := z - era * 146097).
  assert (Hz : 306 <= z <= 3652364) by (unfold z; lia).
  assert (Hera : 0 <= era <= 24 /\ 0 <= doe < 146097 /\
                 (era = 0 -> 306 <= doe) /\ (era = 24 -> doe <= 146036)).
  { unfold doe, era. Z.to_euclidean_division_equations. lia. }
  clearbody doe. clearbody era. clear z Hz Hdays.
  set (yoe := (doe - doe / 1460 + doe / 36524 - doe / 146096) / 365).
  set (doy := doe - (365 * yoe + yoe / 4 - yoe / 100)).
  assert (Hyoe : 0 <= yoe <= 399 /\ 0 <= doy <= 365 /\
                 (yoe = 0 -> doy = doe) /\ (yoe = 399 -> doy = doe - 145731)).
  { unfold doy, yoe. Z.to_euclidean_division_equations. lia. }
  clearbody doy. clearbody yoe.
  set (mp := (5 * doy + 2) / 153).
  assert (Hmp : 0 <= mp <= 11 /\ (306 <= doy -> 10 <= mp) /\
                (doy <= 305 -> mp <= 9))
    by (unfold mp; Z.to_euclidean_division_equations; lia).
  assert (Hd : 1 <= doy - (153 * mp + 2) / 5 + 1 <= 31)
    by (unfold mp; Z.to_euclidean_division_equations; lia).
  clearbody mp. split; [|split; [|exact Hd]].
  - destruct (mp <? 10) eqn:E; [apply Z.ltb_lt in E | apply Z.ltb_ge in E].
    + destruct (mp + 3 <=? 2) eqn:E2;
        [apply Z.leb_le in E2 | apply Z.leb_gt in E2]; lia.
    + destruct (mp - 9 <=? 2) eqn:E2;
        [apply Z.leb_le in E2 | apply Z.leb_gt in E2]; lia.
  - destruct (mp <? 10) eqn:E; [apply Z.ltb_lt in E | apply Z.ltb_ge in E]; lia.
Qed.

(** The instants that [utcfromtimestamp] accepts fall on a date. *)
Lemma utcfromtimestamp_ms_date ms ymd :
  utcfromtimestamp_ms ms = Some ymd -> is_date ymd.
Proof.
  unfold utcfromtimestamp_ms.
  destruct ((MIN_DAY <=? ms / MS_PER_DAY) && (ms / MS_PER_DAY <=? MAX_DAY)) eqn:E;
    [|discriminate].
  intros [= <-]. apply andb_true_iff in E as [E1 E2].
  apply civil_from_days_range. split; [by apply Z.leb_le | by apply Z.leb_le].
Qed.

Lemma strftime_dmY_shape ymd : is_dmY (strftime_dmY ymd) = true.
Proof.
  destruct ymd as [[y m] d].
  unfold strftime_dmY, decimal_year, pad2, is_dmY, is_year.
  generalize (digit_is_digit (d / 10)) (digit_is_digit d)
    (digit_is_digit (m / 10)) (digit_is_digit m)
    (digit_is_digit (y / 1000)) (digit_is_digit (y / 100))
    (digit_is_digit (y / 10)) (digit_is_digit y).
  generalize (digit (d / 10)) (digit d) (digit (m / 10)) (digit m)
    (digit (y / 1000)) (digit (y / 100)) (digit (y / 10)) (digit y).
  intros a1 a2 a3 a4 a5 a6 a7 a8 H1 H2 H3 H4 H5 H6 H7 H8.
  destruct (y <? 10); [|destruct (y <? 100); [|destruct (y <? 1000)]];
    simpl; rewrite H1, H2, H3, H4, ?H5, ?H6, ?H7, ?H8; reflexivity.
Qed.

(** From the year 1000 on the year takes four digits. *)
Lemma strftime_dmY_shape4 y m d :
  1000 <= y -> is_dmY4 (strftime_dmY (y, m, d)) = true.
Proof.
  intros Hy. unfold is_dmY4. rewrite strftime_dmY_shape.
  unfold strftime_dmY, decimal_year, pad2.
  destruct (y <? 10) eqn:E1; [apply Z.ltb_lt in E1; lia|].
  destruct (y <? 100) eqn:E2; [apply Z.ltb_lt in E2; lia|].
  destruct (y <? 1000) eqn:E3; [apply Z.ltb_lt in E3; lia|].
  reflexivity.
Qed.


End CalendarFacts.

Section Facts.

Context `{RT : Runtime}.

Ltac run :=
  unfold bind, ret, raise, gets, modify, lift, try_except in *; simpl in *.

(** ** The HTTP client and the two decorated fetchers *)

Lemma cache_data_spec {A} ttl slot set_slot now (f : M A) w :
  cache_data ttl slot set_slot now f w =
  match fresh ttl now (slot w) with
  | Some v => (Returned v, w)
  | None =>
      match f w with
      | (Returned v, w') => (Returned v, set_slot (Some (now, v)) w')
      | (Raised x, w') => (Raised x, w')
      end
  end.
Proof.
  unfold cache_data, fresh. run.
  destruct (slot w) as [[t0 v]|]; [destruct (now <? t0 + ttl)|];
    try reflexivity; destruct (f w) as [[v'|x] w']; reflexivity.
Qed.

Lemma fetch_exchange_symbols_body_spec e w :
  fetch_exchange_symbols_body e w =
  (match decode (EXCHANGE_INFO (net e)) with
   | Returned data => Returned (filter_symbols data)
   | Raised x => Raised x
   end, log_request GET_exchangeInfo w).
Proof.
  unfold fetch_exchange_symbols_body, requests_get, raise_for_status, r_json, decode.
  run. destruct (EXCHANGE_INFO (net e)) as [|r]; run; [reflexivity|].
  destruct ((400 <=? status_code r) && (status_code r <? 600)); run; [reflexivity|].
  destruct (json r); reflexivity.
Qed.

Lemma fetch_all_tickers_24h_body_spec e w :
  fetch_all_tickers_24h_body e w =
  (decode (TICKER_24H (net e)), log_request GET_ticker_24hr w).
Proof.
  unfold fetch_all_tickers_24h_body, requests_get, raise_for_status, r_json, decode.
  run. destruct (TICKER_24H (net e)) as [|r]; run; [reflexivity|].
  destruct ((400 <=? status_code r) && (status_code r <? 600)); run; [reflexivity|].
  destruct (json r); reflexivity.
Qed.

Lemma fetch_exchange_symbols_spec e w :
  fetch_exchange_symbols e w =
  match fresh 300 (now e) (memo_symbols w) with
  | Some v => (Returned v, w)
  | None =>
      match decode (EXCHANGE_INFO (net e)) with
      | Returned data =>
          (Returned (filter_symbols data),
           set_memo_symbols (Some (now e, filter_symbols data))
             (log_request GET_exchangeInfo w))
      | Raised x => (Raised x, log_request GET_exchangeInfo w)
      end
  end.
Proof.
  unfold fetch_exchange_symbols. rewrite cache_data_spec.
  rewrite fetch_exchange_symbols_body_spec.
  destruct (fresh _ _ _); [reflexivity|].
  destruct (decode _); reflexivity.
Qed.

Lemma fetch_all_tickers_24h_spec e w :
  fetch_all_tickers_24h e w =
  match fresh 12 (now e) (memo_tickers w) with
  | Some v => (Returned v, w)
  | None =>
      match decode (TICKER_24H (net e)) with
      | Returned tickers =>
          (Returned tickers,
           set_memo_tickers (Some (now e, tickers))
             (log_request GET_ticker_24hr w))
      | Raised x => (Raised x, log_request GET_ticker_24hr w)
      end
  end.
Proof.
  unfold fetch_all_tickers_24h. rewrite cache_data_spec.
  rewrite fetch_all_tickers_24h_body_spec.
  destruct (fresh _ _ _); [reflexivity|].
  destruct (decode _); reflexivity.
Qed.

(** A request that raises, a 4xx or 5xx status and a body that does not
    decode make a fetch raise, unless its cache still serves a value. *)
Lemma decode_raises {B} (answer : reply B) :
  answer = GetRaises \/
  (exists r, answer = Response r /\
             (400 <= status_code r < 600 \/ json r = None)) ->
  exists x, decode answer = Raised x.
Proof.
  intros [->|(r & -> & Hr)]; simpl; [eauto|].
  destruct ((400 <=? status_code r) && (status_code r <? 600)) eqn:E; [eauto|].
  destruct Hr as [Hr| ->]; [|eauto].
  apply andb_false_iff in E as [E|E];
    [apply Z.leb_gt in E | apply Z.ltb_ge in E]; lia.
Qed.

Lemma fetch_exchange_symbols_raises e w x :
  fresh 300 (now e) (memo_symbols w) = None ->
  decode (EXCHANGE_INFO (net e)) = Raised x ->
  fetch_exchange_symbols e w = (Raised x, log_request GET_exchangeInfo w).
Proof. intros Hf Hd. by rewrite fetch_exchange_symbols_spec, Hf, Hd. Qed.

Lemma snapshot_raises e w x :
  fresh 12 (now e) (memo_tickers w) = None ->
  decode (TICKER_24H (net e)) = Raised x ->
  snapshot e w = Raised x.
Proof. intros Hf Hd. unfold snapshot. by rewrite Hf, Hd. Qed.

(** ** The listing date *)

(** The lookup always returns, whatever the exchange answers. *)
Lemma listing_lookup_spec e sym w :
  listing_lookup e sym w =
  (Returned (listed_of_reply (KLINES (net e) sym "1d" 1 (Some 0))),
   log_request (listing_request sym) w).
Proof.
  unfold listing_lookup, listed_of_reply, listing_request, requests_get,
    r_json, getitem0, listed_of_ts.
  run. destruct (KLINES (net e) sym "1d" 1 (Some 0)) as [|r]; run; [reflexivity|].
  destruct (status_code r =? 200); run; [|reflexivity].
  destruct (json r) as [arr|]; run; [|reflexivity].
  destruct arr as [|line arr]; run; [reflexivity|].
  destruct line as [|first_ts line]; run; [reflexivity|].
  destruct first_ts as [ms| |]; run; try reflexivity.
  destruct (Calendar.utcfromtimestamp_ms ms); reflexivity.
Qed.

(** ** The filter loop *)

Lemma log_request_lookups sym l w :
  lookups_only (sym :: l) w (log_request (listing_request sym) w).
Proof.
  repeat split; try reflexivity.
  exists [sym]. split; [|reflexivity].
  apply sublist_skip, sublist_nil_l.
Qed.

Lemma lookups_only_refl l w : lookups_only l w w.
Proof.
  repeat split; try reflexivity.
  exists []. split; [apply sublist_nil_l | simpl; by rewrite app_nil_r].
Qed.

Lemma filter_step_spec e tm rows sym w :
  exists w', lookups_only [sym] w w' /\
  filter_step e tm rows sym w =
  (match survivor e tm sym with
   | Returned o => Returned (rows ++ option_list o)
   | Raised x => Raised x
   end, w').
Proof.
  unfold filter_step, survivor, float_.
  destruct (tm !! sym) as [t|]; run;
    [|exists w; split; [apply lookups_only_refl | by rewrite app_nil_r]].
  destruct (py_float (priceChangePercent t)) as [pct|]; run;
    [|exists w; split; [apply lookups_only_refl | reflexivity]].
  destruct (PyFloat.ge0 pct); run;
    [exists w; split; [apply lookups_only_refl | by rewrite app_nil_r]|].
  rewrite listing_lookup_spec.
  exists (log_request (listing_request sym) w).
  split; [apply log_request_lookups|].
  destruct (py_float (lastPrice t)) as [last|]; run; [|reflexivity].
  destruct (py_float (quoteVolume t)) as [vol|]; run; reflexivity.
Qed.

Lemma lookups_only_cons sym l w w1 w2 :
  lookups_only [sym] w w1 -> lookups_only l w1 w2 -> lookups_only (sym :: l) w w2.
Proof.
  intros (Hs1 & Hm1 & Ht1 & a1 & Ha1 & He1) (Hs2 & Hm2 & Ht2 & a2 & Ha2 & He2).
  repeat split; try congruence.
  exists (a1 ++ a2). split.
  - change (sym :: l) with ([sym] ++ l). by apply sublist_app.
  - rewrite He2, He1, map_app, app_assoc. reflexivity.
Qed.

Lemma lookups_only_weaken sym l w w1 :
  lookups_only [sym] w w1 -> lookups_only (sym :: l) w w1.
Proof.
  intros H. eapply lookups_only_cons; [exact H | apply lookups_only_refl].
Qed.

(** The loop computes [survivors], appended to the rows it starts from. *)
Lemma filter_loop_spec e tm symbol_list : forall rows w,
  exists w', lookups_only symbol_list w w' /\
  filter_loop e tm symbol_list rows w =
  (match survivors e tm symbol_list with
   | Returned rs => Returned (rows ++ rs)
   | Raised x => Raised x
   end, w').
Proof.
  induction symbol_list as [|sym rest IH]; intros rows w; simpl.
  - exists w. split; [apply lookups_only_refl|]. run. by rewrite app_nil_r.
  - destruct (filter_step_spec e tm rows sym w) as (w1 & Hw1 & E1).
    unfold bind. rewrite E1.
    destruct (survivor e tm sym) as [o|x].
    + destruct (IH (rows ++ option_list o) w1) as (w2 & Hw2 & E2).
      exists w2. split; [by eapply lookups_only_cons|].
      rewrite E2. destruct (survivors e tm rest); [|reflexivity].
      by rewrite app_assoc.
    + exists w1. split; [by apply lookups_only_weaken | reflexivity].
Qed.

Lemma survivor_Some e tm sym r :
  survivor e tm sym = Returned (Some r) ->
  symbol r = sym /\ qualifies tm sym (pct_24h r) /\
  listed_date r = listed_of_reply (KLINES (net e) sym "1d" 1 (Some 0)).
Proof.
  unfold survivor, qualifies. destruct (tm !! sym) as [t|]; [|discriminate].
  destruct (py_float (priceChangePercent t)) as [pct|] eqn:Ep; [|discriminate].
  destruct (PyFloat.ge0 pct) eqn:Eg; [discriminate|].
  destruct (py_float (lastPrice t)); [|discriminate].
  destruct (py_float (quoteVolume t)); [|discriminate].
  intros [= <-]. simpl. eauto 6.
Qed.

Lemma survivor_qualifies e tm sym pct o :
  survivor e tm sym = Returned o -> qualifies tm sym pct ->
  exists r, o = Some r /\ pct_24h r = pct.
Proof.
  unfold survivor. intros H (t & Ht & Hp & Hg). rewrite Ht, Hp, Hg in H.
  destruct (py_float (lastPrice t)); [|discriminate].
  destruct (py_float (quoteVolume t)); [|discriminate].
  injection H as <-. eauto.
Qed.

(** Every row of the loop comes from a qualifying symbol of the list, the
    rows follow the list, and every qualifying symbol has its row. *)
Lemma survivors_sound e tm symbol_list : forall rows,
  survivors e tm symbol_list = Returned rows ->
  map symbol rows `sublist_of` symbol_list /\
  Forall (fun r => qualifies tm (symbol r) (pct_24h r) /\
                   listed_date r =
                   listed_of_reply (KLINES (net e) (symbol r) "1d" 1 (Some 0)))
         rows.
Proof.
  induction symbol_list as [|sym rest IH]; simpl; intros rows H.
  - injection H as <-. split; [constructor | constructor].
  - destruct (survivor e tm sym) as [o|] eqn:Eo; [|discriminate].
    destruct (survivors e tm rest) as [rs|]; [|discriminate].
    injection H as <-. destruct (IH rs eq_refl) as [Hsub Hall].
    destruct o as [r|]; simpl.
    + apply survivor_Some in Eo as (Hs & Hq & Hl). split.
      * rewrite Hs. by apply sublist_skip.
      * constructor; [|exact Hall]. rewrite Hs. by split.
    + split; [by apply sublist_cons | exact Hall].
Qed.

Lemma survivors_complete e tm symbol_list : forall rows sym pct,
  survivors e tm symbol_list = Returned rows ->
  sym ∈ symbol_list -> qualifies tm sym pct ->
  exists r, r ∈ rows /\ symbol r = sym /\ pct_24h r = pct /\
            listed_date r = listed_of_reply (KLINES (net e) sym "1d" 1 (Some 0)).
Proof.
  induction symbol_list as [|s rest IH]; simpl; intros rows sym pct H Hin Hq.
  - by apply elem_of_nil in Hin.
  - destruct (survivor e tm s) as [o|] eqn:Eo; [|discriminate].
    destruct (survivors e tm rest) as [rs|]; [|discriminate].
    injection H as <-. apply elem_of_cons in Hin as [->|Hin].
    + destruct (survivor_qualifies _ _ _ _ _ Eo Hq) as (r & -> & Hp).
      apply survivor_Some in Eo as (Hs & _ & Hl).
      exists r. simpl. split; [apply elem_of_cons; by left | by repeat split].
    + destruct (IH rs sym pct eq_refl Hin Hq) as (r & Hr & Hrest).
      exists r. split; [|exact Hrest].
      apply elem_of_app. by right.
Qed.

(** ** The sort *)

Lemma chain_lookup R l :
  chain R l <-> forall i a b, l !! i = Some a -> l !! S i = Some b -> R a b.
Proof.
  induction l as [|a [|b l] IH].
  - split; [intros _ i a b [=] | done].
  - split; [intros _ [|i] x y; simpl; [intros _ [=] | intros [=]] | done].
  - change (chain R (a :: b :: l)) with (R a b /\ chain R (b :: l)).
    rewrite IH. split.
    + intros [Hab Hrest] [|i] x y.
      * simpl. intros [= <-] [= <-]. exact Hab.
      * apply Hrest.
    + intros H. split; [by apply (H 0%nat) | intros i; apply (H (S i))].
Qed.

Lemma chain_weaken (R R' : row -> row -> Prop) l :
  (forall a b, R a b -> R' a b) -> chain R l -> chain R' l.
Proof.
  intros HR. induction l as [|a [|b l] IH]; try done.
  intros [Hab Hrest]. split; [by apply HR | by apply IH].
Qed.

Lemma chain_app R l1 l2 :
  chain R l1 -> chain R l2 ->
  (forall a b, last l1 = Some a -> head l2 = Some b -> R a b) ->
  chain R (l1 ++ l2).
Proof.
  induction l1 as [|a [|b l1] IH]; simpl; intros H1 H2 Hj.
  - exact H2.
  - destruct l2 as [|c l2]; [done|]. split; [by apply Hj | exact H2].
  - destruct H1 as [Hab Hrest]. split; [exact Hab|].
    apply IH; [exact Hrest | exact H2 | exact Hj].
Qed.

Lemma insert_row_perm r l : insert_row r l ≡ₚ r :: l.
Proof.
  induction l as [|h t IH]; simpl; [done|].
  destruct (PrimFloat.leb _ _); [done|].
  rewrite IH. apply Permutation_swap.
Qed.

Lemma sort_numbers_perm l : sort_numbers l ≡ₚ l.
Proof.
  induction l as [|r l IH]; simpl; [done|].
  rewrite insert_row_perm. by rewrite IH.
Qed.

Lemma nargsort_perm rows : nargsort rows ≡ₚ rows.
Proof.
  unfold nargsort. rewrite sort_numbers_perm. apply filter_app_complement.
Qed.

Lemma insert_row_chain r l :
  has_number r = true -> Forall (fun x => has_number x = true) l ->
  chain le_pct l -> chain le_pct (insert_row r l).
Proof.
  intros Hr. induction l as [|h t IH]; simpl; [done|].
  intros Hall Hc. apply Forall_cons in Hall as [Hh Ht].
  destruct (PrimFloat.leb (pct_24h r) (pct_24h h)) eqn:E.
  - split; [exact E | exact Hc].
  - assert (Hhr : le_pct h r).
    { apply FloatOrder.ltb_leb, FloatOrder.leb_false_ltb; [| |exact E].
      - unfold has_number in Hr. by apply negb_true_iff in Hr.
      - unfold has_number in Hh. by apply negb_true_iff in Hh. }
    destruct t as [|h' t'].
    + simpl. by split.
    + destruct Hc as [Hhh' Hc']. specialize (IH Ht Hc').
      simpl in IH |- *. destruct (PrimFloat.leb (pct_24h r) (pct_24h h')).
      * split; [exact Hhr | exact IH].
      * split; [exact Hhh' | exact IH].
Qed.

Lemma sort_numbers_chain l :
  Forall (fun x => has_number x = true) l -> chain le_pct (sort_numbers l).
Proof.
  induction l as [|r l IH]; simpl; [done|].
  intros Hall. apply Forall_cons in Hall as [Hr Hl].
  apply insert_row_chain; [exact Hr | | by apply IH].
  by rewrite sort_numbers_perm.
Qed.

(** The order of the sorted table: every line is at most the next one,
    or the next one has no number. *)
Lemma nargsort_chain rows : chain le_pct_nan_last (nargsort rows).
Proof.
  unfold nargsort. apply chain_app.
  - apply chain_weaken with (R := le_pct); [by left|].
    apply sort_numbers_chain, Forall_forall.
    intros x Hx. by apply list_elem_of_filter in Hx as [Hx _].
  - assert (Hnan : Forall (fun b => PyFloat.is_nan (pct_24h b) = true)
                     (filter (fun r => ~ has_number r = true) rows)).
    { apply Forall_forall. intros x Hx.
      apply list_elem_of_filter in Hx as [Hx _].
      unfold has_number in Hx. destruct (PyFloat.is_nan (pct_24h x)); [done|].
      by destruct Hx. }
    induction Hnan as [|b [|c l] Hb Hl IH]; try done.
    split; [right; by inversion Hl | exact IH].
  - intros a b _ Hb. right.
    destruct (filter _ rows) as [|b' l] eqn:E; [done|]. injection Hb as <-.
    assert (Hin : b' ∈ filter (fun r => ~ has_number r = true) rows)
      by (rewrite E; apply elem_of_cons; by left).
    apply list_elem_of_filter in Hin as [Hx _].
    unfold has_number in Hx. destruct (PyFloat.is_nan (pct_24h b')); [done|].
    by destruct Hx.
Qed.

(** Without NaN the table is ascending throughout. *)
Lemma nargsort_chain_numbers rows :
  Forall (fun x => has_number x = true) rows -> chain le_pct (nargsort rows).
Proof.
  intros Hall. unfold nargsort.
  assert (E : filter (fun r => ~ has_number r = true) rows = []).
  { induction Hall as [|x l Hx Hl IH]; [done|].
    rewrite filter_cons_False; [exact IH | by intros []]. }
  rewrite E, app_nil_r. apply sort_numbers_chain, Forall_forall.
  intros x Hx. by apply list_elem_of_filter in Hx as [Hx _].
Qed.

(** ** The stages of the reload *)

Lemma load_symbols_spec e rf w :
  load_symbols e rf w =
  if needs_fetch rf w then
    match fetch_exchange_symbols e w with
    | (Returned v, w1) => (Returned tt, set_symbols_cache (Some v) w1)
    | (Raised x, w1) => (Raised x, w1)
    end
  else (Returned tt, w).
Proof.
  unfold load_symbols, needs_fetch. run.
  destruct (negb _ || rf); [|reflexivity].
  destruct (fetch_exchange_symbols e w) as [[v|x] w1]; reflexivity.
Qed.

Lemma build_rows_spec e N w :
  build_rows e N w =
  match symbols_cache (session w) with
  | None => (Raised TypeError, w)
  | Some all_symbols =>
      match fetch_all_tickers_24h e w with
      | (Returned tickers, w1) =>
          filter_loop e (make_tick_map tickers)
            (map si_symbol (slice_to all_symbols N)) [] w1
      | (Raised x, w1) => (Raised x, w1)
      end
  end.
Proof.
  unfold build_rows. run.
  destruct (symbols_cache (session w)); [|reflexivity].
  destruct (fetch_all_tickers_24h e w) as [[v|x] w1]; reflexivity.
Qed.

Lemma store_result_spec rows w :
  store_result rows w =
  match rows with
  | [] => (Raised (KeyError "% 24h"), w)
  | _ :: _ => (Returned tt, set_filtered_df (Some (sorted_frame rows)) w)
  end.
Proof. destruct rows; reflexivity. Qed.

Lemma reload_spec e N rf w :
  reload e N rf w =
  match load_symbols e rf w with
  | (Returned _, w1) =>
      match build_rows e N w1 with
      | (Returned rows, w2) => store_result rows w2
      | (Raised x, w2) => (Raised x, w2)
      end
  | (Raised x, w1) => (Raised x, w1)
  end.
Proof.
  unfold reload. run.
  destruct (load_symbols e rf w) as [[[]|x] w1]; [|reflexivity].
  destruct (build_rows e N w1) as [[rows|x] w2]; reflexivity.
Qed.

Lemma fetch_all_tickers_24h_fst e w :
  fst (fetch_all_tickers_24h e w) = snapshot e w.
Proof.
  rewrite fetch_all_tickers_24h_spec. unfold snapshot.
  destruct (fresh _ _ _); [reflexivity|]. destruct (decode _); reflexivity.
Qed.

(** What the first stage leaves alone. *)
Lemma load_symbols_frame e rf w o w1 :
  load_symbols e rf w = (o, w1) ->
  candle_cache (session w1) = candle_cache (session w) /\
  filtered_df (session w1) = filtered_df (session w) /\
  memo_tickers w1 = memo_tickers w /\
  (sent w1 = sent w \/ sent w1 = sent w ++ [GET_exchangeInfo]).
Proof.
  rewrite load_symbols_spec, fetch_exchange_symbols_spec.
  destruct (needs_fetch rf w); [|intros [= <- <-]; auto].
  destruct (fresh _ _ _); [intros [= <- <-]; simpl; auto|].
  destruct (decode _); intros [= <- <-]; simpl; auto.
Qed.

(** What the second stage leaves alone. *)
Lemma build_rows_frame e N w o w2 :
  build_rows e N w = (o, w2) ->
  session w2 = session w /\ memo_symbols w2 = memo_symbols w /\
  exists tick_requests syms,
    (tick_requests = [] \/ tick_requests = [GET_ticker_24hr]) /\
    (forall all_symbols, symbols_cache (session w) = Some all_symbols ->
       syms `sublist_of` map si_symbol (slice_to all_symbols N)) /\
    sent w2 = sent w ++ tick_requests ++ map listing_request syms.
Proof.
  rewrite build_rows_spec.
  destruct (symbols_cache (session w)) as [all_symbols|].
  2:{ intros [= <- <-]. repeat split. exists [], []. simpl.
      repeat split; [by left | done | by rewrite app_nil_r]. }
  rewrite fetch_all_tickers_24h_spec.
  set (l := map si_symbol (slice_to all_symbols N)).
  assert (Hloop : forall tickers w1 o w2,
    session w1 = session w -> memo_symbols w1 = memo_symbols w ->
    (exists tr, (tr = [] \/ tr = [GET_ticker_24hr]) /\ sent w1 = sent w ++ tr) ->
    filter_loop e (make_tick_map tickers) l [] w1 = (o, w2) ->
    session w2 = session w /\ memo_symbols w2 = memo_symbols w /\
    exists tick_requests syms,
      (tick_requests = [] \/ tick_requests = [GET_ticker_24hr]) /\
      (forall a, Some all_symbols = Some a ->
         syms `sublist_of` map si_symbol (slice_to a N)) /\
      sent w2 = sent w ++ tick_requests ++ map listing_request syms).
  { intros tickers w1 o' w2' Hs Hm (tr & Htr & Hsent) E.
    destruct (filter_loop_spec e (make_tick_map tickers) l [] w1)
      as (w' & (Hs' & Hm' & _ & syms & Hsub & Hsent') & E').
    rewrite E' in E. injection E as _ <-.
    repeat split; try congruence.
    exists tr, syms. repeat split; [exact Htr | by intros a [= <-] |].
    rewrite Hsent', Hsent, app_assoc. reflexivity. }
  destruct (fresh _ _ _) as [v|].
  - apply Hloop; try reflexivity. exists []. split; [by left | by rewrite app_nil_r].
  - destruct (decode _) as [tickers|x].
    + apply Hloop; try reflexivity. exists [GET_ticker_24hr]. split; [by right | done].
    + intros [= <- <-]. simpl. repeat split.
      exists [GET_ticker_24hr], [].
      repeat split; [by right | intros; apply sublist_nil_l].
Qed.

(** A cycle that returns went through its three stages: the session
    holds the metadata, the loop returned rows, at least one, and the
    sorted table of these rows is the new ["filtered_df"]. *)
Lemma reload_returned e N rf w w' :
  reload e N rf w = (Returned tt, w') ->
  exists w1 all_symbols tickers rows,
    load_symbols e rf w = (Returned tt, w1) /\
    symbols_cache (session w1) = Some all_symbols /\
    symbols_cache (session w') = Some all_symbols /\
    snapshot e w = Returned tickers /\
    survivors e (make_tick_map tickers)
      (map si_symbol (slice_to all_symbols N)) = Returned rows /\
    rows <> [] /\
    filtered_df (session w') = Some (sorted_frame rows).
Proof.
  rewrite reload_spec.
  destruct (load_symbols e rf w) as [[[]|x] w1] eqn:E1; [|discriminate].
  destruct (build_rows e N w1) as [[rows|x] w2] eqn:E2; [|discriminate].
  rewrite store_result_spec. destruct rows as [|r rows]; [discriminate|].
  intros [= <-].
  destruct (build_rows_frame _ _ _ _ _ E2) as (Hs2 & _).
  destruct (load_symbols_frame _ _ _ _ _ E1) as (_ & _ & Hm1 & _).
  rewrite build_rows_spec in E2.
  destruct (symbols_cache (session w1)) as [all_symbols|] eqn:Ec; [|discriminate].
  pose proof (fetch_all_tickers_24h_fst e w1) as Hsnap.
  destruct (fetch_all_tickers_24h e w1) as [[tickers|x] w1'] eqn:Et; [|discriminate].
  simpl in Hsnap.
  destruct (filter_loop_spec e (make_tick_map tickers)
              (map si_symbol (slice_to all_symbols N)) [] w1')
    as (w'' & _ & E'). rewrite E' in E2.
  destruct (survivors e _ _) as [rs|] eqn:Es; [|discriminate].
  injection E2 as E2 _. simpl in E2. subst rs.
  exists w1, all_symbols, tickers, (r :: rows).
  repeat split; try done.
  - simpl. rewrite Hs2. exact Ec.
  - rewrite Hsnap. unfold snapshot. by rewrite Hm1.
Qed.

(** ** The filtered result *)

(** Whatever [float] reads in the snapshot: in the table that a refresh
    cycle stores no row has a percent change [>= 0], and a percent change
    that is a number is strictly below zero. *)
Lemma filtered_rows_not_ge0 e N rf w w' :
  reload e N rf w = (Returned tt, w') ->
  exists df, filtered_df (session w') = Some df /\
    forall r, r ∈ records df ->
      PyFloat.ge0 (pct_24h r) = false /\
      (PyFloat.is_nan (pct_24h r) = false -> PyFloat.lt0 (pct_24h r) = true).
Proof.
  intros H.
  destruct (reload_returned _ _ _ _ _ H)
    as (w1 & all_symbols & tickers & rows & _ & _ & _ & _ & Hrows & _ & Hdf).
  exists (sorted_frame rows). split; [exact Hdf|].
  intros r Hr. simpl in Hr. rewrite nargsort_perm in Hr.
  destruct (survivors_sound _ _ _ _ Hrows) as [_ Hall].
  rewrite Forall_forall in Hall.
  destruct (Hall r Hr) as [(t & _ & _ & Hge) _].
  split; [exact Hge|]. intros Hnan. by apply FloatOrder.not_ge0_lt0.
Qed.

(** Whatever [float] reads in the snapshot: [sort_values] puts the rows
    in ascending order of percent change and those without a number
    last: for neighbours [a], [b] either [a <= b] or [b] is NaN. *)
Lemma filtered_rows_ascending_nan_last e N rf w w' :
  reload e N rf w = (Returned tt, w') ->
  exists df, filtered_df (session w') = Some df /\
    forall i a b, records df !! i = Some a -> records df !! S i = Some b ->
      PrimFloat.leb (pct_24h a) (pct_24h b) = true \/
      PyFloat.is_nan (pct_24h b) = true.
Proof.
  intros H.
  destruct (reload_returned _ _ _ _ _ H)
    as (w1 & all_symbols & tickers & rows & _ & _ & _ & _ & _ & _ & Hdf).
  exists (sorted_frame rows). split; [exact Hdf|].
  apply (chain_lookup le_pct_nan_last), nargsort_chain.
Qed.

Lemma slice_to_take {A} (l : list A) (n : Z) :
  0 <= n -> slice_to l n = take (Z.to_nat n) l.
Proof.
  intros Hn. unfold slice_to.
  destruct (0 <=? n) eqn:E; [reflexivity|]. apply Z.leb_gt in E. lia.
Qed.

(** C3: with a max-symbols input [N] (the widget gives 1 to 2000) the
    candidates of a refresh cycle are the first [N] entries of the
    metadata list, in its order; the Filtered Result has at most [N]
    rows, its rows are rows of candidates, one at most per candidate,
    and every candidate that qualifies has its row. *)
Theorem filtered_count_bound e N rf w w' :
  0 <= N ->
  reload e N rf w = (Returned tt, w') ->
  exists all_symbols tickers df,
    symbols_cache (session w') = Some all_symbols /\
    snapshot e w = Returned tickers /\
    filtered_df (session w') = Some df /\
    slice_to all_symbols N = take (Z.to_nat N) all_symbols /\
    Z.of_nat (length (records df)) <= N /\
    (exists rows, records df ≡ₚ rows /\
       map symbol rows `sublist_of`
         map si_symbol (take (Z.to_nat N) all_symbols)) /\
    (forall s pct, s ∈ take (Z.to_nat N) all_symbols ->
       qualifies (make_tick_map tickers) (si_symbol s) pct ->
       exists r, r ∈ records df /\ symbol r = si_symbol s /\ pct_24h r = pct).
Proof.
  intros HN H.
  destruct (reload_returned _ _ _ _ _ H)
    as (w1 & all_symbols & tickers & rows & _ & _ & Hc & Hsnap & Hrows & _ & Hdf).
  rewrite (slice_to_take _ _ HN) in Hrows.
  destruct (survivors_sound _ _ _ _ Hrows) as [Hsub _].
  exists all_symbols, tickers, (sorted_frame rows).
  split; [exact Hc|]. split; [exact Hsnap|]. split; [exact Hdf|].
  split; [by apply slice_to_take|]. split; [|split].
  - simpl. rewrite nargsort_perm.
    apply sublist_length in Hsub. rewrite !length_map, length_take in Hsub. lia.
  - exists rows. split; [apply nargsort_perm | exact Hsub].
  - intros s pct Hs Hq.
    destruct (survivors_complete _ _ _ _ (si_symbol s) pct Hrows)
      as (r & Hr & Hsym & Hp & _).
    + apply list_elem_of_fmap. by exists s.
    + exact Hq.
    + exists r. simpl. rewrite nargsort_perm. by repeat split.
Qed.

Lemma listed_of_reply_fails answer :
  lookup_fails answer -> listed_of_reply answer = "N/A"%string.
Proof.
  intros [->|(r & -> & Hr)]; [reflexivity|]. simpl.
  destruct (status_code r =? 200) eqn:E; [|reflexivity].
  apply Z.eqb_eq in E. destruct Hr as [Hr|[->| ->]]; [done| |]; reflexivity.
Qed.

Lemma listed_of_reply_succeeds answer ymd :
  lookup_succeeds answer ymd ->
  listed_of_reply answer = Calendar.strftime_dmY ymd.
Proof.
  intros (r & ms & line & arr & -> & Hs & Hj & Hd). simpl.
  by rewrite Hs, Hj, Hd.
Qed.

(** ** The lookups do not decide how a cycle ends *)

Lemma survivor_symbol_indep e e' tm sym :
  outcome_map (option_map symbol) (survivor e' tm sym) =
  outcome_map (option_map symbol) (survivor e tm sym).
Proof.
  unfold survivor. destruct (tm !! sym) as [t|]; [|reflexivity].
  destruct (py_float (priceChangePercent t)) as [pct|]; [|reflexivity].
  destruct (PyFloat.ge0 pct); [reflexivity|].
  destruct (py_float (lastPrice t)); [|reflexivity].
  destruct (py_float (quoteVolume t)); reflexivity.
Qed.

Lemma survivors_symbols_indep e e' tm symbol_list :
  outcome_map (map symbol) (survivors e' tm symbol_list) =
  outcome_map (map symbol) (survivors e tm symbol_list).
Proof.
  induction symbol_list as [|sym rest IH]; simpl; [reflexivity|].
  pose proof (survivor_symbol_indep e e' tm sym) as Hs.
  destruct (survivor e' tm sym) as [o'|x'], (survivor e tm sym) as [o|x];
    simpl in Hs; try discriminate; [|by injection Hs as ->].
  destruct (survivors e' tm rest) as [rs'|y'], (survivors e tm rest) as [rs|y];
    simpl in IH |- *; try discriminate; [|by injection IH as ->].
  injection Hs as Hs. injection IH as IH.
  rewrite !map_app, IH. f_equal. f_equal.
  destruct o, o'; simpl in *; congruence.
Qed.

Lemma load_symbols_indep e e' rf w :
  same_but_klines e e' -> load_symbols e' rf w = load_symbols e rf w.
Proof.
  intros (Hn & Hx & _). rewrite !load_symbols_spec, !fetch_exchange_symbols_spec.
  by rewrite Hn, Hx.
Qed.

Lemma fetch_all_tickers_24h_indep e e' w :
  same_but_klines e e' -> fetch_all_tickers_24h e' w = fetch_all_tickers_24h e w.
Proof.
  intros (Hn & _ & Ht). rewrite !fetch_all_tickers_24h_spec. by rewrite Hn, Ht.
Qed.

(** Whether a cycle returns, and what it raises when it does not, is the
    same whatever the exchange answers to the listing-date lookups. *)
Lemma reload_outcome_indep e e' N rf w :
  same_but_klines e e' -> fst (reload e' N rf w) = fst (reload e N rf w).
Proof.
  intros Hsame. rewrite !reload_spec, (load_symbols_indep e e' rf w Hsame).
  destruct (load_symbols e rf w) as [[[]|x] w1]; [|reflexivity].
  rewrite !build_rows_spec, (fetch_all_tickers_24h_indep e e' w1 Hsame).
  destruct (symbols_cache (session w1)) as [all_symbols|]; [|reflexivity].
  destruct (fetch_all_tickers_24h e w1) as [[tickers|x] w2]; [|reflexivity].
  set (tm := make_tick_map tickers).
  set (l := map si_symbol (slice_to all_symbols N)).
  destruct (filter_loop_spec e tm l [] w2) as (wa & _ & Ea).
  destruct (filter_loop_spec e' tm l [] w2) as (wb & _ & Eb).
  rewrite Ea, Eb. pose proof (survivors_symbols_indep e e' tm l) as Hs.
  destruct (survivors e' tm l) as [rs'|y'], (survivors e tm l) as [rs|y];
    simpl in Hs |- *; try discriminate; [|by injection Hs as ->].
  rewrite !store_result_spec. injection Hs as Hs.
  destruct rs', rs; simpl in Hs; try discriminate; reflexivity.
Qed.

(** C5: in a refresh cycle that returns, a qualifying candidate [X] whose
    listing-date lookup fails (exception, status other than 200, empty
    answer) and a qualifying candidate [Y] whose lookup succeeds both
    have their row in the Filtered Result, [X] with the date ["N/A"] and
    [Y] with the date of its first candle written day/month/year (the
    day and the month on two digits, the year in decimal).  The lookup
    itself always returns, and the cycle would have returned under any
    other answers to the lookups. *)
Theorem listing_failure_isolated e N rf w w' all_symbols tickers X Y pctX pctY ymd :
  reload e N rf w = (Returned tt, w') ->
  symbols_cache (session w') = Some all_symbols ->
  snapshot e w = Returned tickers ->
  X ∈ map si_symbol (slice_to all_symbols N) ->
  Y ∈ map si_symbol (slice_to all_symbols N) ->
  qualifies (make_tick_map tickers) X pctX ->
  qualifies (make_tick_map tickers) Y pctY ->
  lookup_fails (KLINES (net e) X "1d" 1 (Some 0)) ->
  lookup_succeeds (KLINES (net e) Y "1d" 1 (Some 0)) ymd ->
  (exists df rx ry,
     filtered_df (session w') = Some df /\
     rx ∈ records df /\ symbol rx = X /\ listed_date rx = "N/A"%string /\
     ry ∈ records df /\ symbol ry = Y /\
     listed_date ry = Calendar.strftime_dmY ymd /\
     Calendar.is_date ymd /\
     Calendar.is_dmY (listed_date ry) = true) /\
  (forall sym w0, exists s,
     listing_lookup e sym w0 = (Returned s, log_request (listing_request sym) w0)) /\
  (forall e', same_but_klines e e' -> fst (reload e' N rf w) = Returned tt).
Proof.
  intros H Hc Hsnap HX HY HqX HqY Hfail Hok.
  destruct (reload_returned _ _ _ _ _ H)
    as (w1 & all' & tickers' & rows & _ & _ & Hc' & Hsnap' & Hrows & _ & Hdf).
  rewrite Hc in Hc'. injection Hc' as <-.
  rewrite Hsnap in Hsnap'. injection Hsnap' as <-.
  destruct (survivors_complete _ _ _ _ X pctX Hrows HX HqX) as (rx & Hrx & Hsx & _ & Hlx).
  destruct (survivors_complete _ _ _ _ Y pctY Hrows HY HqY) as (ry & Hry & Hsy & _ & Hly).
  split; [|split].
  - exists (sorted_frame rows), rx, ry. simpl. rewrite !nargsort_perm.
    rewrite (listed_of_reply_fails _ Hfail) in Hlx.
    rewrite (listed_of_reply_succeeds _ _ Hok) in Hly.
    destruct Hok as (r & ms & line & arr & _ & _ & _ & Hd).
    apply CalendarFacts.utcfromtimestamp_ms_date in Hd.
    split; [exact Hdf|]. split; [exact Hrx|]. split; [exact Hsx|].
    split; [exact Hlx|]. split; [exact Hry|]. split; [exact Hsy|].
    split; [exact Hly|]. split; [exact Hd|].
    rewrite Hly. apply CalendarFacts.strftime_dmY_shape.
  - intros sym w0. eexists. apply listing_lookup_spec.
  - intros e' Hsame. rewrite (reload_outcome_indep e e' N rf w Hsame).
    by rewrite H.
Qed.

(** ** Cycles that raise *)

Lemma load_symbols_returned e rf w w1 :
  load_symbols e rf w = (Returned tt, w1) ->
  is_Some (symbols_cache (session w1)).
Proof.
  rewrite load_symbols_spec, fetch_exchange_symbols_spec. unfold needs_fetch.
  destruct (bool_decide (is_Some (symbols_cache (session w)))) eqn:Ec, rf; simpl;
    try (destruct (fresh _ _ _); [|destruct (decode _)];
         intros [= <-]; simpl; eauto; fail).
  intros [= <-]. by apply bool_decide_eq_true in Ec.
Qed.

(** ["filtered_df"] is written by the last statement of the block only:
    a cycle that raises leaves the stored table as it was. *)
Lemma reload_raised_keeps_result e N rf w x w' :
  reload e N rf w = (Raised x, w') ->
  filtered_df (session w') = filtered_df (session w).
Proof.
  rewrite reload_spec.
  destruct (load_symbols e rf w) as [[[]|y] w1] eqn:E1.
  - destruct (load_symbols_frame _ _ _ _ _ E1) as (_ & Hf1 & _).
    destruct (build_rows e N w1) as [[rows|y] w2] eqn:E2.
    + destruct (build_rows_frame _ _ _ _ _ E2) as (Hs2 & _).
      rewrite store_result_spec. destruct rows; [|discriminate].
      intros [= _ <-]. by rewrite Hs2.
    + destruct (build_rows_frame _ _ _ _ _ E2) as (Hs2 & _).
      intros [= _ <-]. by rewrite Hs2.
  - destruct (load_symbols_frame _ _ _ _ _ E1) as (_ & Hf1 & _).
    intros [= _ <-]. exact Hf1.
Qed.

Lemma reload_keeps_candles e N rf w o w' :
  reload e N rf w = (o, w') ->
  candle_cache (session w') = candle_cache (session w).
Proof.
  rewrite reload_spec.
  destruct (load_symbols e rf w) as [[[]|y] w1] eqn:E1;
    destruct (load_symbols_frame _ _ _ _ _ E1) as (Hc1 & _).
  - destruct (build_rows e N w1) as [[rows|y] w2] eqn:E2;
      destruct (build_rows_frame _ _ _ _ _ E2) as (Hs2 & _).
    + rewrite store_result_spec. destruct rows; intros [= _ <-]; simpl;
        by rewrite Hs2.
    + intros [= _ <-]. by rewrite Hs2.
  - intros [= _ <-]. exact Hc1.
Qed.

(** C6: when the metadata fetch raises (it is due and the exchange does
    not answer, answers 4xx or 5xx, or sends what does not decode), or
    when the metadata stage returned and the ticker fetch raises, the
    cycle raises that same exception, and so does the rerun of the
    script; the stored Filtered Result is the one from before, and the
    cycle sent one request per fetch it tried and no other. *)
Theorem reload_fail_fast e N rf w x :
  (needs_fetch rf w = true /\ fst (fetch_exchange_symbols e w) = Raised x) \/
  (fst (load_symbols e rf w) = Returned tt /\ snapshot e w = Raised x) ->
  exists w' added,
    reload e N rf w = (Raised x, w') /\
    (forall i, need_reload i = true -> max_symbols i = N -> refresh i = rf ->
               script e i w = (Raised x, w')) /\
    filtered_df (session w') = filtered_df (session w) /\
    sent w' = sent w ++ added /\
    (added = [GET_exchangeInfo] \/ added = [GET_ticker_24hr] \/
     added = [GET_exchangeInfo; GET_ticker_24hr]).
Proof.
  assert (Hscript : forall w', reload e N rf w = (Raised x, w') ->
    forall i, need_reload i = true -> max_symbols i = N -> refresh i = rf ->
              script e i w = (Raised x, w')).
  { intros w' H i Hn <- <-. unfold script. run. by rewrite Hn, H. }
  intros [[Hneed Hfetch]|[Hload Hsnap]].
  - assert (E : load_symbols e rf w = (Raised x, log_request GET_exchangeInfo w)).
    { rewrite load_symbols_spec, Hneed.
      rewrite fetch_exchange_symbols_spec in Hfetch |- *.
      destruct (fresh _ _ _); [discriminate|].
      destruct (decode _); [discriminate|]. by injection Hfetch as ->. }
    assert (R : reload e N rf w = (Raised x, log_request GET_exchangeInfo w))
      by (by rewrite reload_spec, E).
    exists (log_request GET_exchangeInfo w), [GET_exchangeInfo].
    repeat split; [exact R | by apply Hscript | by left].
  - destruct (load_symbols e rf w) as [[[]|y] w1] eqn:E1; [|discriminate].
    destruct (load_symbols_frame _ _ _ _ _ E1) as (_ & Hf1 & Hm1 & Hsent1).
    destruct (load_symbols_returned _ _ _ _ E1) as [all_symbols Hc].
    assert (E2 : build_rows e N w1 = (Raised x, log_request GET_ticker_24hr w1)).
    { rewrite build_rows_spec, Hc, fetch_all_tickers_24h_spec.
      unfold snapshot in Hsnap. rewrite <- Hm1 in Hsnap.
      destruct (fresh _ _ _); [discriminate|].
      destruct (decode _); [discriminate|]. by injection Hsnap as ->. }
    assert (R : reload e N rf w = (Raised x, log_request GET_ticker_24hr w1))
      by (by rewrite reload_spec, E1, E2).
    exists (log_request GET_ticker_24hr w1).
    destruct Hsent1 as [Hs|Hs].
    + exists [GET_ticker_24hr].
      repeat split; [exact R | by apply Hscript | exact Hf1 | | auto].
      simpl. by rewrite Hs.
    + exists [GET_exchangeInfo; GET_ticker_24hr].
      repeat split; [exact R | by apply Hscript | exact Hf1 | | auto].
      simpl. rewrite Hs, <- app_assoc. reflexivity.
Qed.

Lemma survivors_all_dropped e tm symbol_list :
  Forall (dropped tm) symbol_list -> survivors e tm symbol_list = Returned [].
Proof.
  induction 1 as [|sym rest Hd _ IH]; simpl; [reflexivity|].
  rewrite IH. unfold survivor.
  destruct Hd as [->|(t & pct & -> & -> & ->)]; reflexivity.
Qed.

(** C9: when the metadata stage returned, the snapshot was fetched and
    every candidate is dropped by the join or by the filter, the cycle
    does not store an empty table: sorting the frame without columns
    raises [KeyError] on ["% 24h"], and the stored Filtered Result is the
    one from before. *)
Theorem reload_empty_rows_raises e N rf w w1 all_symbols tickers :
  load_symbols e rf w = (Returned tt, w1) ->
  symbols_cache (session w1) = Some all_symbols ->
  snapshot e w = Returned tickers ->
  Forall (dropped (make_tick_map tickers))
         (map si_symbol (slice_to all_symbols N)) ->
  exists w',
    reload e N rf w = (Raised (KeyError "% 24h"), w') /\
    filtered_df (session w') = filtered_df (session w) /\
    forall i, need_reload i = true -> max_symbols i = N -> refresh i = rf ->
              script e i w = (Raised (KeyError "% 24h"), w').
Proof.
  intros E1 Hc Hsnap Hdrop.
  destruct (load_symbols_frame _ _ _ _ _ E1) as (_ & _ & Hm1 & _).
  pose proof (fetch_all_tickers_24h_fst e w1) as Hfst.
  unfold snapshot in Hfst, Hsnap. rewrite Hm1 in Hfst. rewrite Hsnap in Hfst.
  destruct (fetch_all_tickers_24h e w1) as [o w2] eqn:Et. simpl in Hfst. subst o.
  destruct (filter_loop_spec e (make_tick_map tickers)
              (map si_symbol (slice_to all_symbols N)) [] w2) as (w' & _ & El).
  rewrite (survivors_all_dropped _ _ _ Hdrop) in El. simpl in El.
  assert (R : reload e N rf w = (Raised (KeyError "% 24h"), w')).
  { rewrite reload_spec, E1, build_rows_spec, Hc, Et, El. reflexivity. }
  exists w'. split; [exact R|]. split.
  - by eapply reload_raised_keeps_result.
  - intros i Hn <- <-. unfold script. run. by rewrite Hn, R.
Qed.

(** ** The metadata cache *)

(** C7, as the code has it: a value stored at [t0] is served for 300
    time units.  Before [t0 + 300] a call returns the stored value and
    changes nothing, no request is sent, and this is also what the
    refresh button gets; from [t0 + 300] on, a call asks the exchange
    once and stores what it decodes in place of the old value; and a
    cycle without the button keeps the metadata of the session and does
    not call the fetcher at all, expired or not. *)
Theorem metadata_cache_ttl e w t0 v :
  memo_symbols w = Some (t0, v) ->
  (now e < t0 + 300 ->
     fetch_exchange_symbols e w = (Returned v, w) /\
     load_symbols e true w = (Returned tt, set_symbols_cache (Some v) w)) /\
  (t0 + 300 <= now e ->
     exists o w',
       fetch_exchange_symbols e w = (o, w') /\
       requests_during w w' = [GET_exchangeInfo] /\
       o = outcome_map filter_symbols (decode (EXCHANGE_INFO (net e))) /\
       forall data, decode (EXCHANGE_INFO (net e)) = Returned data ->
                    memo_symbols w' = Some (now e, filter_symbols data)) /\
  (is_Some (symbols_cache (session w)) ->
     load_symbols e false w = (Returned tt, w)).
Proof.
  intros Hm. split; [|split].
  - intros Hlt. assert (Hf : fresh 300 (now e) (memo_symbols w) = Some v).
    { rewrite Hm. simpl. apply Z.ltb_lt in Hlt. by rewrite Hlt. }
    assert (E : fetch_exchange_symbols e w = (Returned v, w))
      by (by rewrite fetch_exchange_symbols_spec, Hf).
    split; [exact E|]. rewrite load_symbols_spec, E. unfold needs_fetch.
    by rewrite orb_true_r.
  - intros Hge.
    assert (Hf : fresh 300 (now e) (memo_symbols w) = @None (list symbol_info)).
    { rewrite Hm. simpl. apply Z.ltb_ge in Hge. by rewrite Hge. }
    rewrite fetch_exchange_symbols_spec, Hf. unfold requests_during.
    destruct (decode (EXCHANGE_INFO (net e))) as [data|x]; eexists _, _;
      (split; [reflexivity|]); simpl; rewrite drop_app_length;
      repeat split; try done. by intros data' [= <-].
  - intros Hc. rewrite load_symbols_spec. unfold needs_fetch.
    by rewrite (bool_decide_eq_true_2 _ Hc).
Qed.

(** ** The candle cache *)

Lemma get_klines_cached_spec e s i limit w :
  get_klines_cached e s i limit w =
  match candle_cache (session w) !! cache_key s i with
  | Some df => (Returned df, w)
  | None =>
      let w1 := log_request (GET_klines s i limit None) w in
      match decode (KLINES (net e) s i limit None) with
      | Raised x => (Raised x, w1)
      | Returned arr =>
          match klines_frame arr with
          | Raised x => (Raised x, w1)
          | Returned df =>
              (Returned df,
               set_candle_cache (<[cache_key s i := df]> (candle_cache (session w))) w1)
          end
      end
  end.
Proof.
  unfold get_klines_cached, requests_get, raise_for_status, r_json, decode. run.
  destruct (candle_cache (session w) !! cache_key s i); [reflexivity|].
  destruct (KLINES (net e) s i limit None) as [|r]; run; [reflexivity|].
  destruct ((400 <=? status_code r) && (status_code r <? 600)); run; [reflexivity|].
  destruct (json r) as [arr|]; run; [|reflexivity].
  destruct (klines_frame arr); reflexivity.
Qed.

Lemma get_klines_cached_keeps e s i limit w o w' :
  get_klines_cached e s i limit w = (o, w') -> keeps_candles w w'.
Proof.
  rewrite get_klines_cached_spec. intros H key df Hk.
  destruct (candle_cache (session w) !! cache_key s i) eqn:Ec.
  - by injection H as _ <-.
  - simpl in H. destruct (decode _); [destruct (klines_frame _)|];
      injection H as _ <-; simpl; try exact Hk.
    rewrite lookup_insert_ne; [exact Hk | congruence].
Qed.

Lemma script_keeps_candles e i w : keeps_candles w (snd (script e i w)).
Proof.
  unfold script. run.
  assert (H1 : exists o1 w1,
    (if need_reload i then reload e (max_symbols i) (refresh i) else
       fun w => (Returned tt, w)) w = (o1, w1) /\
    candle_cache (session w1) = candle_cache (session w)).
  { destruct (need_reload i).
    - destruct (reload e (max_symbols i) (refresh i) w) as [o1 w1] eqn:E.
      exists o1, w1. split; [reflexivity|]. by eapply reload_keeps_candles.
    - by exists (Returned tt), w. }
  destruct H1 as (o1 & w1 & -> & Hc). intros key df Hk. rewrite <- Hc in Hk.
  destruct o1 as [[]|x]; simpl; [|exact Hk].
  destruct (filtered_df (session w1)); simpl; [|exact Hk].
  unfold lookup_interval. destruct (find _ INTERVAL_MAP) as [kv|]; run; [|exact Hk].
  destruct (selected i) as [sym|]; simpl; [|exact Hk].
  destruct (bool_decide (sym = ""%string)); simpl; [exact Hk|].
  destruct (get_klines_cached e sym (snd kv) 500 w1) as [[df'|x] w2] eqn:E;
    simpl; by apply (get_klines_cached_keeps _ _ _ _ _ _ _ E).
Qed.

Lemma reruns_keep_candles runs : forall w, keeps_candles w (reruns runs w).
Proof.
  induction runs as [|[e i] rest IH]; intros w key df Hk; simpl; [exact Hk|].
  by apply IH, script_keeps_candles.
Qed.

(** C4: once a call for [(s, i)] has returned a series, every later call
    of the session for [(s, i)], with any limit and whatever the exchange
    would answer by then, returns that series and changes nothing: no
    request is sent. *)
Theorem candle_cache_ignores_limit e1 s i limit1 w df w1 runs e2 limit2 :
  get_klines_cached e1 s i limit1 w = (Returned df, w1) ->
  get_klines_cached e2 s i limit2 (reruns runs w1) = (Returned df, reruns runs w1) /\
  requests_during (reruns runs w1)
    (snd (get_klines_cached e2 s i limit2 (reruns runs w1))) = [].
Proof.
  intros H.
  assert (Hk : candle_cache (session w1) !! cache_key s i = Some df).
  { rewrite get_klines_cached_spec in H.
    destruct (candle_cache (session w) !! cache_key s i) eqn:Ec.
    - by injection H as <- <-.
    - simpl in H. destruct (decode _); [destruct (klines_frame _)|];
        try discriminate. injection H as <- <-. simpl. apply lookup_insert_eq. }
  apply (reruns_keep_candles runs) in Hk.
  assert (E : get_klines_cached e2 s i limit2 (reruns runs w1)
              = (Returned df, reruns runs w1))
    by (by rewrite get_klines_cached_spec, Hk).
  split; [exact E|]. rewrite E. unfold requests_during. simpl.
  apply drop_all.
Qed.

(** ** The key of the candle cache *)

Lemma append_nil (b : string) : ""%string +:+ b = b.
Proof. reflexivity. Qed.

Lemma append_cons c (a b : string) : String c a +:+ b = String c (a +:+ b).
Proof. reflexivity. Qed.

Lemma has_underscore_app a b : has_underscore (a +:+ String "_"%char b) = true.
Proof.
  induction a as [|c a IH].
  - reflexivity.
  - rewrite append_cons. simpl. rewrite IH. apply orb_true_r.
Qed.

Lemma is_interval_no_underscore i : is_interval i -> has_underscore i = false.
Proof.
  unfold is_interval. simpl. rewrite !elem_of_cons, elem_of_nil.
  intros [->|[->|[->|[->|[->|[->|[->|[]]]]]]]]; reflexivity.
Qed.

(** Where the intervals hold no underscore, the key tells the pair. *)
Lemma cache_key_inj s1 i1 s2 i2 :
  has_underscore i1 = false -> has_underscore i2 = false ->
  cache_key s1 i1 = cache_key s2 i2 -> s1 = s2 /\ i1 = i2.
Proof.
  unfold cache_key. intros H1 H2. revert s2.
  induction s1 as [|c1 s1 IH]; intros [|c2 s2];
    rewrite ?append_cons, ?append_nil.
  - intros [= ->]. done.
  - intros [= <- ->]. by rewrite has_underscore_app in H1.
  - intros [= -> <-]. by rewrite has_underscore_app in H2.
  - intros [= -> E]. destruct (IH s2 E) as [-> ->]. done.
Qed.

(** In general it does not: the two arguments are glued with a character
    that both may contain. *)
Remark cache_key_not_injective :
  cache_key "A_B" "C" = cache_key "A" "B_C" /\
  ("A_B"%string, "C"%string) <> ("A"%string, "B_C"%string).
Proof. split; [reflexivity | discriminate]. Qed.

(** C10: for two different pairs of a symbol and an interval of the
    chart, the keys differ; a call for the first pair leaves the entry
    of the second as it was, and where the second has no entry the next
    call for it asks the exchange for its own candles. *)
Theorem candle_cache_key_distinct e s1 i1 limit1 s2 i2 w o w1 :
  is_interval i1 -> is_interval i2 -> (s1, i1) <> (s2, i2) ->
  get_klines_cached e s1 i1 limit1 w = (o, w1) ->
  cache_key s1 i1 <> cache_key s2 i2 /\
  candle_cache (session w1) !! cache_key s2 i2 =
    candle_cache (session w) !! cache_key s2 i2 /\
  (candle_cache (session w) !! cache_key s2 i2 = None ->
   forall e2 limit2,
     requests_during w1 (snd (get_klines_cached e2 s2 i2 limit2 w1))
     = [GET_klines s2 i2 limit2 None]).
Proof.
  intros Hi1 Hi2 Hne H.
  assert (Hkey : cache_key s1 i1 <> cache_key s2 i2).
  { intros E. apply cache_key_inj in E as [-> ->];
      [done | by apply is_interval_no_underscore..]. }
  assert (Hsame : candle_cache (session w1) !! cache_key s2 i2 =
                  candle_cache (session w) !! cache_key s2 i2).
  { rewrite get_klines_cached_spec in H.
    destruct (candle_cache (session w) !! cache_key s1 i1).
    - by injection H as _ <-.
    - simpl in H. destruct (decode _); [destruct (klines_frame _)|];
        injection H as _ <-; simpl; try reflexivity.
      by apply lookup_insert_ne. }
  split; [exact Hkey|]. split; [exact Hsame|].
  intros Hnone e2 limit2. rewrite get_klines_cached_spec, Hsame, Hnone.
  unfold requests_during. simpl.
  destruct (decode _); [destruct (klines_frame _)|]; simpl;
    by rewrite drop_app_length.
Qed.

(** ** The numeric columns of the candles *)

Lemma to_datetime_column_returns col :
  Forall (fun v => is_Some (pd_to_datetime_ms v)) col ->
  exists ts, to_datetime_column col = Returned ts /\ length ts = length col.
Proof.
  induction 1 as [|v col [t Hv] _ (ts & IH & Hlen)]; simpl.
  - by exists [].
  - unfold to_datetime_ms. rewrite Hv, IH. exists (t :: ts). simpl. by rewrite Hlen.
Qed.

Lemma zip_candles_lookup arr :
  forall ots os hs ls cs vs cts i line ot o h l c v ct,
    arr !! i = Some line -> ots !! i = Some ot ->
    os !! i = Some o -> hs !! i = Some h -> ls !! i = Some l ->
    cs !! i = Some c -> vs !! i = Some v -> cts !! i = Some ct ->
    zip_candles arr ots os hs ls cs vs cts !! i
    = Some (make_candle line ot o h l c v ct).
Proof.
  induction arr as [|l0 arr IH];
    intros [|ot0 ots] [|o0 os] [|h0 hs] [|l1 ls] [|c0 cs] [|v0 vs] [|ct0 cts]
      i line ot o h l c v ct Ha Hot Ho Hh Hl Hc Hv Hct;
    try (destruct i; discriminate).
  destruct i as [|i]; simpl in *.
  - congruence.
  - by apply IH.
Qed.


Lemma column_lookup arr k i line :
  arr !! i = Some line -> column arr k !! i = Some (cell line k).
Proof. intros Hi. unfold column. by rewrite list_lookup_fmap, Hi. Qed.

Lemma column_length arr k : length (column arr k) = length arr.
Proof. unfold column. apply length_map. Qed.

(** *** The numeric columns *)

Lemma valid_number_read v :
  valid_number v = false <-> read_number v = None.
Proof.
  destruct v as [z|s|]; simpl; [split; discriminate| |by split].
  destruct (pd_numeric s); split; (discriminate || reflexivity).
Qed.


(** In a column whose integers are kept every cell reads as an integer. *)
Lemma keeps_integers_lookup col i v :
  keeps_integers col = true -> col !! i = Some v ->
  exists z, read_number v = Some (NInt z) /\
            (INT64_MIN <= z <= INT64_MAX \/ 0 <= z <= UINT64_MAX).
Proof.
  unfold keeps_integers. intros Hk Hv.
  assert (Hin : In v col) by (apply list_elem_of_In; eapply list_elem_of_lookup_2, Hv).
  apply orb_true_iff in Hk as [Hk|Hk];
    pose proof (proj1 (forallb_forall _ _) Hk v Hin) as Hf; simpl in Hf;
    destruct (read_number v) as [[z|x]|]; try discriminate;
    exists z; (split; [reflexivity|]);
    apply andb_true_iff in Hf as [H1 H2];
    apply Z.leb_le in H1; apply Z.leb_le in H2; [left|right]; lia.
Qed.

(** Line by line: in a column of kept integers the cell is the integer
    it reads as, in another column it is the float of what it reads as. *)
Lemma to_numeric_coerce_lookup col i v :
  col !! i = Some v ->
  exists n,
    to_numeric_coerce col !! i = Some n /\
    (if keeps_integers col
     then read_number v = Some n /\ exists z, n = NInt z
     else n = NFloat (to_float (read_number v))).
Proof.
  intros Hv. unfold to_numeric_coerce.
  destruct (keeps_integers col) eqn:Hk; rewrite list_lookup_fmap, Hv; simpl.
  - destruct (keeps_integers_lookup col i v Hk Hv) as (z & Hz & _).
    exists (NInt z). rewrite Hz. eauto.
  - eauto.
Qed.

Lemma to_numeric_coerce_float col i v n :
  col !! i = Some v -> to_numeric_coerce col !! i = Some n ->
  float_of n = to_float (read_number v) /\
  (valid_number v = false -> n = NFloat PrimFloat.nan).
Proof.
  intros Hv Hn.
  destruct (to_numeric_coerce_lookup col i v Hv) as (n' & Hn' & Hcase).
  rewrite Hn in Hn'. injection Hn' as <-.
  destruct (keeps_integers col).
  - destruct Hcase as [Hr _]. rewrite Hr. split; [reflexivity|].
    intros Hbad. apply valid_number_read in Hbad. congruence.
  - subst n. split; [reflexivity|].
    intros Hbad. apply valid_number_read in Hbad. by rewrite Hbad.
Qed.

Lemma numeric_cols_cases k get (P : nat -> (candle -> number) -> Prop) :
  (k, get) ∈ numeric_cols ->
  P 1%nat open -> P 2%nat high -> P 3%nat low -> P 5%nat volume ->
  P 4%nat close -> P k get.
Proof.
  unfold numeric_cols. rewrite !elem_of_cons, elem_of_nil.
  intros [E|[E|[E|[E|[E|[]]]]]]; injection E as -> ->; auto.
Qed.

(** C8: a raw answer of the expected shape (no line, or lines of twelve
    cells, whose opening and closing times convert) always gives a
    frame, whatever stands in the numeric cells; line by line, each of
    [open], [high], [low], [volume], [close] is the cell of its converted
    column, worth the number read in the raw cell, and a raw cell that
    is not a valid number gives NaN, the marker of a missing value, which
    is not zero. *)
Theorem malformed_numeric_is_nan arr i line :
  (arr = [] \/ width arr = 12%nat) ->
  Forall (fun l => is_Some (pd_to_datetime_ms (cell l 0)) /\
                   is_Some (pd_to_datetime_ms (cell l 6))) arr ->
  arr !! i = Some line ->
  exists df c,
    klines_frame arr = Returned df /\ df !! i = Some c /\
    forall k get, (k, get) ∈ numeric_cols ->
      to_numeric_coerce (column arr k) !! i = Some (get c) /\
      float_of (get c) = to_float (read_number (cell line k)) /\
      (valid_number (cell line k) = false ->
         get c = NFloat PrimFloat.nan /\
         isna (get c) = true /\
         PrimFloat.eqb (float_of (get c)) PrimFloat.zero = false).
Proof.
  intros Hshape Htimes Hi. unfold klines_frame.
  assert (Hguard : negb (length arr =? 0)%nat && negb (width arr =? 12)%nat = false).
  { destruct Hshape as [->| ->]; [reflexivity|]. by rewrite andb_false_r. }
  rewrite Hguard.
  destruct (to_datetime_column_returns (column arr 0)) as (ots & -> & Hlo).
  { apply Forall_fmap. eapply Forall_impl; [exact Htimes|]. by intros l []. }
  destruct (to_datetime_column_returns (column arr 6)) as (cts & -> & Hlc).
  { apply Forall_fmap. eapply Forall_impl; [exact Htimes|]. by intros l []. }
  rewrite column_length in Hlo, Hlc.
  pose proof (lookup_lt_Some _ _ _ Hi) as Hlt.
  destruct (lookup_lt_is_Some_2 ots i ltac:(lia)) as [ot Hot].
  destruct (lookup_lt_is_Some_2 cts i ltac:(lia)) as [ct Hct].
  destruct (to_numeric_coerce_lookup _ i _ (column_lookup arr 1 i line Hi))
    as (o & Ho & _).
  destruct (to_numeric_coerce_lookup _ i _ (column_lookup arr 2 i line Hi))
    as (h & Hh & _).
  destruct (to_numeric_coerce_lookup _ i _ (column_lookup arr 3 i line Hi))
    as (l & Hl & _).
  destruct (to_numeric_coerce_lookup _ i _ (column_lookup arr 4 i line Hi))
    as (c & Hc & _).
  destruct (to_numeric_coerce_lookup _ i _ (column_lookup arr 5 i line Hi))
    as (v & Hv & _).
  eexists _, (make_candle line ot o h l c v ct).
  split; [reflexivity|].
  split; [by apply zip_candles_lookup|].
  assert (Hall : forall k n,
            to_numeric_coerce (column arr k) !! i = Some n ->
            to_numeric_coerce (column arr k) !! i = Some n /\
            float_of n = to_float (read_number (cell line k)) /\
            (valid_number (cell line k) = false ->
               n = NFloat PrimFloat.nan /\ isna n = true /\
               PrimFloat.eqb (float_of n) PrimFloat.zero = false)).
  { intros k n Hn. split; [exact Hn|].
    destruct (to_numeric_coerce_float _ i _ n (column_lookup arr k i line Hi) Hn)
      as [Hf Hnan].
    split; [exact Hf|]. intros Hbad. rewrite (Hnan Hbad). by repeat split. }
  intros k get Hin.
  apply (numeric_cols_cases k get
           (fun k get =>
              to_numeric_coerce (column arr k) !! i
              = Some (get (make_candle line ot o h l c v ct)) /\
              float_of (get (make_candle line ot o h l c v ct))
              = to_float (read_number (cell line k)) /\
              (valid_number (cell line k) = false ->
                 get (make_candle line ot o h l c v ct) = NFloat PrimFloat.nan /\
                 isna (get (make_candle line ot o h l c v ct)) = true /\
                 PrimFloat.eqb
                   (float_of (get (make_candle line ot o h l c v ct)))
                   PrimFloat.zero = false)) Hin);
    simpl; by apply Hall.
Qed.

End Facts.

(** * More of the script *)

Section MoreFacts.

Context `{RT : Runtime}.

Ltac step :=
  unfold bind, ret, raise, gets, modify, lift, try_except in *; simpl in *.

(** ** The metadata filter *)

Lemma is_usdt_perpetual_true s :
  is_usdt_perpetual s = true <->
  quoteAsset s = "USDT"%string /\ contractType s = "PERPETUAL"%string /\
  status s = "TRADING"%string.
Proof.
  unfold is_usdt_perpetual. rewrite !andb_true_iff, !bool_decide_eq_true.
  tauto.
Qed.

(** X1: a metadata fetch that goes to the exchange and decodes its answer
    returns the contracts of the answer that are quoted in USDT,
    perpetual and trading, all of them and in the order of the answer; it
    stores that list with the time, sends one request and leaves the
    session alone. *)
Theorem fetch_exchange_symbols_filters e w data :
  fresh 300 (now e) (memo_symbols w) = None ->
  decode (EXCHANGE_INFO (net e)) = Returned data ->
  exists v w',
    fetch_exchange_symbols e w = (Returned v, w') /\
    v `sublist_of` data /\
    (forall s, s ∈ v <->
       s ∈ data /\ quoteAsset s = "USDT"%string /\
       contractType s = "PERPETUAL"%string /\ status s = "TRADING"%string) /\
    memo_symbols w' = Some (now e, v) /\
    requests_during w w' = [GET_exchangeInfo] /\
    session w' = session w.
Proof.
  intros Hf Hd. rewrite fetch_exchange_symbols_spec, Hf, Hd.
  eexists _, _. split; [reflexivity|]. split; [apply sublist_filter|].
  split; [|split; [reflexivity|split; [|reflexivity]]].
  - intros s. unfold filter_symbols. rewrite list_elem_of_filter.
    rewrite is_usdt_perpetual_true. tauto.
  - unfold requests_during. simpl. by rewrite drop_app_length.
Qed.

(** ** The join with the tickers *)

Lemma make_tick_map_snoc tickers t :
  make_tick_map (tickers ++ [t]) = <[tk_symbol t := t]> (make_tick_map tickers).
Proof. unfold make_tick_map. by rewrite foldl_app. Qed.

Lemma make_tick_map_None tickers s :
  make_tick_map tickers !! s = None <-> s ∉ map tk_symbol tickers.
Proof.
  induction tickers as [|t tickers IH] using rev_ind.
  - split; [intros _; apply not_elem_of_nil | reflexivity].
  - rewrite make_tick_map_snoc, map_app, not_elem_of_app. simpl.
    rewrite lookup_insert_None, IH, not_elem_of_cons.
    split; [intros [H1 H2]; repeat split; [done | congruence | apply not_elem_of_nil]
           | intros [H1 [H2 _]]; split; [done | congruence]].
Qed.

Lemma make_tick_map_Some tickers s t :
  make_tick_map tickers !! s = Some t <-> last_with_symbol tickers s t.
Proof.
  revert t. induction tickers as [|x tickers IH] using rev_ind; intros t.
  - split; [discriminate|]. intros (before & after & E & _).
    by destruct before.
  - rewrite make_tick_map_snoc. split.
    + destruct (decide (tk_symbol x = s)) as [Hx|Hx].
      * rewrite Hx, lookup_insert_eq. intros [= <-].
        exists tickers, []. repeat split; [done | apply not_elem_of_nil].
      * rewrite lookup_insert_ne by done. intros H.
        apply IH in H as (before & after & -> & Ht & Hafter).
        exists before, (after ++ [x]). split; [by rewrite <- app_assoc|].
        split; [done|]. rewrite map_app, not_elem_of_app. split; [done|].
        simpl. rewrite not_elem_of_cons. split; [congruence | apply not_elem_of_nil].
    + intros (before & after & E & Ht & Hafter).
      destruct after as [|y after _] using rev_ind.
      * apply app_inj_tail in E as [-> ->]. rewrite Ht. apply lookup_insert_eq.
      * rewrite app_comm_cons, app_assoc in E. apply app_inj_tail in E as [-> ->].
        rewrite map_app, not_elem_of_app in Hafter. destruct Hafter as [Ha Hy].
        simpl in Hy. rewrite not_elem_of_cons in Hy. destruct Hy as [Hy _].
        rewrite lookup_insert_ne by congruence.
        apply IH. by exists before, after.
Qed.

(** X2: the ticker that the loop finds for a symbol is the last one of
    the snapshot that carries it, and the loop finds none exactly when no
    ticker of the snapshot carries it. *)
Theorem tick_map_last_wins tickers s :
  (forall t, make_tick_map tickers !! s = Some t <-> last_with_symbol tickers s t) /\
  (make_tick_map tickers !! s = None <-> s ∉ map tk_symbol tickers).
Proof.
  split; [intros t; apply make_tick_map_Some | apply make_tick_map_None].
Qed.

Lemma survivor_ticker e tm sym r :
  survivor e tm sym = Returned (Some r) ->
  symbol r = sym /\ exists t, tm !! sym = Some t /\ row_of_ticker e t r.
Proof.
  unfold survivor, row_of_ticker. destruct (tm !! sym) as [t|]; [|discriminate].
  destruct (py_float (priceChangePercent t)) as [pct|] eqn:Ep; [|discriminate].
  destruct (PyFloat.ge0 pct); [discriminate|].
  destruct (py_float (lastPrice t)) eqn:El; [|discriminate].
  destruct (py_float (quoteVolume t)) eqn:Ev; [|discriminate].
  intros [= <-]. simpl. split; [reflexivity|]. exists t. by repeat split.
Qed.

Lemma survivors_tickers e tm symbol_list : forall rows,
  survivors e tm symbol_list = Returned rows ->
  Forall (fun r => exists t, tm !! symbol r = Some t /\ row_of_ticker e t r) rows.
Proof.
  induction symbol_list as [|sym rest IH]; simpl; intros rows H.
  - injection H as <-. constructor.
  - destruct (survivor e tm sym) as [o|] eqn:Eo; [|discriminate].
    destruct (survivors e tm rest) as [rs|]; [|discriminate].
    injection H as <-. specialize (IH rs eq_refl).
    destruct o as [r|]; simpl; [|exact IH].
    apply survivor_ticker in Eo as (Hs & t & Ht & Hrow).
    constructor; [|exact IH]. exists t. by rewrite Hs.
Qed.

(** X3: in the table of a cycle that returns, the three numbers of every
    row are the texts of the last ticker of its symbol, read by [float],
    and its date is the outcome of the lookup of its symbol; a symbol
    that no ticker carries has no row. *)
Theorem rows_come_from_tickers e N rf w w' tickers df :
  reload e N rf w = (Returned tt, w') ->
  snapshot e w = Returned tickers ->
  filtered_df (session w') = Some df ->
  (forall r, r ∈ records df ->
     exists t, last_with_symbol tickers (symbol r) t /\ row_of_ticker e t r) /\
  (forall s, s ∉ map tk_symbol tickers -> s ∉ map symbol (records df)).
Proof.
  intros H Hsnap Hdf.
  destruct (reload_returned _ _ _ _ _ H)
    as (w1 & all_symbols & tickers' & rows & _ & _ & _ & Hsnap' & Hrows & _ & Hdf').
  rewrite Hsnap in Hsnap'. injection Hsnap' as <-.
  rewrite Hdf in Hdf'. injection Hdf' as ->. simpl.
  pose proof (survivors_tickers _ _ _ _ Hrows) as Hall.
  rewrite Forall_forall in Hall.
  assert (Hrow : forall r, r ∈ nargsort rows ->
    exists t, last_with_symbol tickers (symbol r) t /\ row_of_ticker e t r).
  { intros r Hr. rewrite nargsort_perm in Hr.
    destruct (Hall r Hr) as (t & Ht & Hrow). exists t.
    split; [by apply make_tick_map_Some | exact Hrow]. }
  split; [exact Hrow|].
  intros s Hs Hin. apply list_elem_of_fmap in Hin as (r & -> & Hr).
  destruct (Hrow r Hr) as (t & Ht & _).
  apply make_tick_map_Some in Ht. apply make_tick_map_None in Hs. congruence.
Qed.

(** ** What a cycle asks the exchange *)

Lemma filter_step_eq e tm rows sym w :
  filter_step e tm rows sym w =
  match tm !! sym with
  | None => (Returned rows, w)
  | Some t =>
      match py_float (priceChangePercent t) with
      | None => (Raised ValueError, w)
      | Some pct =>
          if PyFloat.ge0 pct then (Returned rows, w)
          else
            let w1 := log_request (listing_request sym) w in
            match py_float (lastPrice t), py_float (quoteVolume t) with
            | Some last, Some vol =>
                (Returned (rows ++ [make_row sym pct last vol
                   (listed_of_reply (KLINES (net e) sym "1d" 1 (Some 0)))]), w1)
            | _, _ => (Raised ValueError, w1)
            end
      end
  end.
Proof.
  unfold filter_step, float_. destruct (tm !! sym) as [t|]; step; [|reflexivity].
  destruct (py_float (priceChangePercent t)) as [pct|]; step; [|reflexivity].
  destruct (PyFloat.ge0 pct); step; [reflexivity|].
  rewrite listing_lookup_spec.
  destruct (py_float (lastPrice t)) as [last|]; step; [|reflexivity].
  destruct (py_float (quoteVolume t)) as [vol|]; step; reflexivity.
Qed.

(** A loop that returns sent one lookup per row it appended, in order. *)
Lemma filter_loop_log e tm symbol_list : forall rows w rows' w',
  filter_loop e tm symbol_list rows w = (Returned rows', w') ->
  exists added,
    rows' = rows ++ added /\
    sent w' = sent w ++ map (fun r => listing_request (symbol r)) added.
Proof.
  induction symbol_list as [|sym rest IH]; intros rows w rows' w'; simpl.
  - intros [= <- <-]. exists []. simpl. by rewrite !app_nil_r.
  - unfold bind. rewrite filter_step_eq.
    destruct (tm !! sym) as [t|]; [|apply IH].
    destruct (py_float (priceChangePercent t)) as [pct|]; [|discriminate].
    destruct (PyFloat.ge0 pct); [apply IH|]. simpl.
    destruct (py_float (lastPrice t)) as [last|]; [|discriminate].
    destruct (py_float (quoteVolume t)) as [vol|]; [|discriminate].
    intros H. apply IH in H as (added & -> & Hsent).
    eexists (_ :: added). rewrite <- app_assoc. split; [reflexivity|].
    rewrite Hsent. simpl. rewrite <- app_assoc. reflexivity.
Qed.

(** X4: a cycle that returns has sent, in this order, at most one
    metadata request, at most one ticker request, and then one listing
    lookup for each row of its table and no other. *)
Theorem cycle_requests e N rf w w' df :
  reload e N rf w = (Returned tt, w') ->
  filtered_df (session w') = Some df ->
  exists prelude rows,
    is_prelude prelude /\ records df ≡ₚ rows /\
    requests_during w w' =
      prelude ++ map (fun r => listing_request (symbol r)) rows.
Proof.
  rewrite reload_spec.
  destruct (load_symbols e rf w) as [[[]|x] w1] eqn:E1; [|discriminate].
  destruct (load_symbols_frame _ _ _ _ _ E1) as (_ & _ & _ & Hs1).
  rewrite build_rows_spec.
  destruct (symbols_cache (session w1)) as [all_symbols|]; [|discriminate].
  rewrite fetch_all_tickers_24h_spec.
  assert (Hloop : forall tickers w2 pre,
    is_prelude pre -> sent w2 = sent w ++ pre ->
    match filter_loop e (make_tick_map tickers)
            (map si_symbol (slice_to all_symbols N)) [] w2 with
    | (Returned rows, w3) => store_result rows w3
    | (Raised x, w3) => (Raised x, w3)
    end = (Returned tt, w') ->
    filtered_df (session w') = Some df ->
    exists prelude rows,
      is_prelude prelude /\ records df ≡ₚ rows /\
      requests_during w w' =
        prelude ++ map (fun r => listing_request (symbol r)) rows).
  { intros tickers w2 pre Hpre Hs2.
    destruct (filter_loop e _ _ [] w2) as [[rows|x] w3] eqn:El; [|discriminate].
    apply filter_loop_log in El as (added & Hadded & Hs3). simpl in Hadded.
    subst added. rewrite store_result_spec.
    destruct rows as [|r rows]; [discriminate|].
    intros [= <-]. simpl. intros [= <-]. simpl.
    exists pre, (r :: rows). split; [exact Hpre|]. split; [apply nargsort_perm|].
    unfold requests_during. simpl.
    rewrite Hs3, Hs2, <- app_assoc. by rewrite drop_app_length. }
  destruct (fresh 12 (now e) (memo_tickers w1)) as [v|].
  - destruct Hs1 as [Hs1|Hs1].
    + apply (Hloop v w1 []); [by left | by rewrite Hs1, app_nil_r].
    + apply (Hloop v w1 [GET_exchangeInfo]); [right; by left | exact Hs1].
  - destruct (decode (TICKER_24H (net e))) as [tickers|x]; [|discriminate].
    destruct Hs1 as [Hs1|Hs1].
    + apply (Hloop tickers _ [GET_ticker_24hr]);
        [right; right; by left | simpl; by rewrite Hs1].
    + apply (Hloop tickers _ [GET_exchangeInfo; GET_ticker_24hr]);
        [by do 3 right | simpl; by rewrite Hs1, <- app_assoc].
Qed.

(** ** Numbers that [float] refuses *)

Lemma survivor_raises e tm sym x : survivor e tm sym = Raised x -> x = ValueError.
Proof.
  unfold survivor. destruct (tm !! sym) as [t|]; [|discriminate].
  destruct (py_float (priceChangePercent t)) as [pct|]; [|by intros [= <-]].
  destruct (PyFloat.ge0 pct); [discriminate|].
  destruct (py_float (lastPrice t)); [|by intros [= <-]].
  destruct (py_float (quoteVolume t)); [discriminate | by intros [= <-]].
Qed.

Lemma survivor_refused e tm sym t :
  tm !! sym = Some t -> refused t -> survivor e tm sym = Raised ValueError.
Proof.
  unfold survivor. intros -> [->|(pct & -> & -> & [->| ->])]; try reflexivity.
  by destruct (py_float (lastPrice t)).
Qed.

Lemma survivors_refused e tm symbol_list sym t :
  sym ∈ symbol_list -> tm !! sym = Some t -> refused t ->
  survivors e tm symbol_list = Raised ValueError.
Proof.
  intros Hin Ht Hr. induction symbol_list as [|s rest IH]; simpl.
  - by apply elem_of_nil in Hin.
  - destruct (survivor e tm s) as [o|x] eqn:Es.
    + apply elem_of_cons in Hin as [->|Hin].
      * rewrite (survivor_refused _ _ _ _ Ht Hr) in Es. discriminate.
      * by rewrite (IH Hin).
    + by rewrite (survivor_raises _ _ _ _ Es).
Qed.

(** X5: when the metadata stage returned and the snapshot was fetched, a
    single candidate whose ticker carries a number that [float] refuses
    (its percent change, or the last price or volume of a contract that
    passes the filter) makes the cycle raise [ValueError]; the stored
    table is the one from before. *)
Theorem malformed_ticker_aborts e N rf w w1 all_symbols tickers sym t :
  load_symbols e rf w = (Returned tt, w1) ->
  symbols_cache (session w1) = Some all_symbols ->
  snapshot e w = Returned tickers ->
  sym ∈ map si_symbol (slice_to all_symbols N) ->
  make_tick_map tickers !! sym = Some t ->
  refused t ->
  exists w',
    reload e N rf w = (Raised ValueError, w') /\
    filtered_df (session w') = filtered_df (session w).
Proof.
  intros E1 Hc Hsnap Hin Ht Hr.
  destruct (load_symbols_frame _ _ _ _ _ E1) as (_ & _ & Hm1 & _).
  pose proof (fetch_all_tickers_24h_fst e w1) as Hfst.
  unfold snapshot in Hfst, Hsnap. rewrite Hm1, Hsnap in Hfst.
  destruct (fetch_all_tickers_24h e w1) as [o w2] eqn:Et. simpl in Hfst. subst o.
  destruct (filter_loop_spec e (make_tick_map tickers)
              (map si_symbol (slice_to all_symbols N)) [] w2) as (w' & _ & El).
  rewrite (survivors_refused _ _ _ _ _ Hin Ht Hr) in El.
  assert (R : reload e N rf w = (Raised ValueError, w')).
  { rewrite reload_spec, E1, build_rows_spec, Hc, Et, El. reflexivity. }
  exists w'. split; [exact R | by eapply reload_raised_keeps_result].
Qed.

(** ** One rerun of the script *)

Lemma lookup_interval_spec label w :
  lookup_interval label w =
  match interval_of label with
  | Some interval => (Returned interval, w)
  | None => (Raised (KeyError label), w)
  end.
Proof.
  unfold lookup_interval, interval_of.
  destruct (find _ INTERVAL_MAP); reflexivity.
Qed.

Lemma script_spec e i w :
  script e i w =
  match after_reload e i w with
  | (Raised x, w1) => (Raised x, w1)
  | (Returned _, w1) =>
      match filtered_df (session w1) with
      | None => (Returned tt, w1)
      | Some _ =>
          match interval_of (chart_interval_label i) with
          | None => (Raised (KeyError (chart_interval_label i)), w1)
          | Some interval =>
              match selected i with
              | Some sym =>
                  if bool_decide (sym = ""%string) then (Returned tt, w1)
                  else (Returned tt,
                        snd (get_klines_cached e sym interval 500 w1))
              | None => (Returned tt, w1)
              end
          end
      end
  end.
Proof.
  unfold script, after_reload. unfold bind at 1.
  destruct (need_reload i).
  - destruct (reload e (max_symbols i) (refresh i) w) as [[[]|x] w1];
      [|reflexivity].
    unfold bind at 1. unfold gets at 1.
    destruct (filtered_df (session w1)); [|reflexivity].
    unfold bind at 1. rewrite lookup_interval_spec.
    destruct (interval_of _) as [interval|]; [|reflexivity].
    destruct (selected i) as [sym|]; [|reflexivity].
    destruct (bool_decide (sym = ""%string)); [reflexivity|].
    unfold try_except, bind, ret.
    destruct (get_klines_cached e sym interval 500 w1) as [[df|x] w2]; reflexivity.
  - unfold ret at 1. unfold bind at 1. unfold gets at 1.
    destruct (filtered_df (session w)); [|reflexivity].
    unfold bind at 1. rewrite lookup_interval_spec.
    destruct (interval_of _) as [interval|]; [|reflexivity].
    destruct (selected i) as [sym|]; [|reflexivity].
    destruct (bool_decide (sym = ""%string)); [reflexivity|].
    unfold try_except, bind, ret.
    destruct (get_klines_cached e sym interval 500 w) as [[df|x] w2]; reflexivity.
Qed.

Lemma interval_of_label label :
  is_label label -> exists interval, interval_of label = Some interval /\ is_interval interval.
Proof.
  unfold is_label, is_interval. simpl. rewrite !elem_of_cons, elem_of_nil.
  intros [->|[->|[->|[->|[->|[->|[->|[]]]]]]]];
    (eexists; split; [reflexivity|]);
    apply list_elem_of_In; simpl; auto 10.
Qed.

Lemma interval_of_is_interval label interval :
  interval_of label = Some interval -> is_interval interval.
Proof.
  unfold interval_of, is_interval.
  destruct (find _ INTERVAL_MAP) as [kv|] eqn:E; [|discriminate].
  intros [= <-]. apply find_some in E as [Hin _].
  apply list_elem_of_fmap. exists kv. split; [reflexivity|].
  by apply list_elem_of_In.
Qed.

(** What a call of the candle fetcher leaves alone. *)
Lemma get_klines_cached_frame e s i limit w o w' :
  get_klines_cached e s i limit w = (o, w') ->
  filtered_df (session w') = filtered_df (session w) /\
  symbols_cache (session w') = symbols_cache (session w) /\
  memo_symbols w' = memo_symbols w /\ memo_tickers w' = memo_tickers w /\
  (requests_during w w' = [] \/
   requests_during w w' = [GET_klines s i limit None]).
Proof.
  rewrite get_klines_cached_spec. unfold requests_during.
  destruct (candle_cache (session w) !! cache_key s i).
  - intros [= _ <-]. repeat split. left. apply drop_all.
  - simpl. destruct (decode _); [destruct (klines_frame _)|];
      intros [= _ <-]; simpl; repeat split; right; by rewrite drop_app_length.
Qed.

(** X6: a rerun without the button and without auto update, with a time
    frame of the radio, returns; it leaves the table, the metadata and
    the two decorated caches as they were, does nothing at all while
    there is no table, and sends either no request or the one request of
    the chart, for 500 candles of the chosen symbol and time frame. *)
Theorem idle_rerun e i w :
  need_reload i = false ->
  is_label (chart_interval_label i) ->
  exists w',
    script e i w = (Returned tt, w') /\
    filtered_df (session w') = filtered_df (session w) /\
    symbols_cache (session w') = symbols_cache (session w) /\
    memo_symbols w' = memo_symbols w /\ memo_tickers w' = memo_tickers w /\
    (filtered_df (session w) = None -> w' = w) /\
    (requests_during w w' = [] \/
     exists sym interval,
       selected i = Some sym /\
       interval_of (chart_interval_label i) = Some interval /\
       requests_during w w' = [GET_klines sym interval 500 None]).
Proof.
  intros Hn Hl. rewrite script_spec. unfold after_reload. rewrite Hn.
  destruct (interval_of_label _ Hl) as (interval & -> & _).
  assert (Hnone : requests_during w w = []) by apply drop_all.
  destruct (filtered_df (session w)) as [df|] eqn:Edf;
    [|exists w; repeat split; auto].
  destruct (selected i) as [sym|]; [|exists w; repeat split; auto; discriminate].
  destruct (bool_decide (sym = ""%string));
    [exists w; repeat split; auto; discriminate|].
  destruct (get_klines_cached e sym interval 500 w) as [o w'] eqn:E.
  destruct (get_klines_cached_frame _ _ _ _ _ _ _ E) as (H1 & H2 & H3 & H4 & H5).
  exists w'. simpl. repeat split; try done; [congruence|].
  destruct H5 as [H5|H5]; [by left | right; eauto].
Qed.

(** X7: with a time frame of the radio, whether a rerun returns or
    raises, and what it raises, is decided by the reload block alone:
    whatever happens while the candles of the chart are fetched and
    parsed is caught, and the table is the one the block left. *)
Theorem chart_errors_caught e i w :
  is_label (chart_interval_label i) ->
  fst (script e i w) = fst (after_reload e i w) /\
  filtered_df (session (snd (script e i w)))
  = filtered_df (session (snd (after_reload e i w))).
Proof.
  intros Hl. rewrite script_spec.
  destruct (interval_of_label _ Hl) as (interval & -> & _).
  destruct (after_reload e i w) as [[[]|x] w1]; [|by split].
  destruct (filtered_df (session w1)) as [df|] eqn:Edf; [|by split].
  destruct (selected i) as [sym|]; [|by split].
  destruct (bool_decide (sym = ""%string)); [by split|].
  destruct (get_klines_cached e sym interval 500 w1) as [o w'] eqn:E.
  destruct (get_klines_cached_frame _ _ _ _ _ _ _ E) as (H1 & _).
  simpl. split; [reflexivity | congruence].
Qed.

(** X8: a rerun changes the candle cache in one place at most: every
    key keeps what it held, except that the key of the chosen symbol and
    time frame may get a series when it had none.  A refresh never drops
    or renews a cached series. *)
Theorem rerun_touches_one_key e i w key :
  candle_cache (session (snd (script e i w))) !! key
  = candle_cache (session w) !! key \/
  (candle_cache (session w) !! key = None /\
   exists sym interval,
     selected i = Some sym /\ sym <> ""%string /\
     interval_of (chart_interval_label i) = Some interval /\
     key = cache_key sym interval).
Proof.
  rewrite script_spec.
  assert (Hc : candle_cache (session (snd (after_reload e i w)))
               = candle_cache (session w)).
  { unfold after_reload. destruct (need_reload i); [|reflexivity].
    destruct (reload e (max_symbols i) (refresh i) w) as [o w1] eqn:E.
    by eapply reload_keeps_candles. }
  destruct (after_reload e i w) as [[[]|x] w1]; simpl in Hc |- *;
    [|left; by rewrite Hc].
  destruct (filtered_df (session w1)); simpl; [|left; by rewrite Hc].
  destruct (interval_of (chart_interval_label i)) as [interval|] eqn:Ei;
    simpl; [|left; by rewrite Hc].
  destruct (selected i) as [sym|]; simpl; [|left; by rewrite Hc].
  destruct (bool_decide (sym = ""%string)) eqn:Es; simpl;
    [left; by rewrite Hc|].
  apply bool_decide_eq_false in Es.
  rewrite get_klines_cached_spec, Hc.
  destruct (candle_cache (session w) !! cache_key sym interval) eqn:Ek;
    simpl; [left; by rewrite Hc|].
  destruct (decode _); [destruct (klines_frame _)|]; simpl;
    try (left; by rewrite Hc).
  destruct (decide (cache_key sym interval = key)) as [<-|Hne].
  - right. split; [exact Ek|]. by exists sym, interval.
  - left. by rewrite lookup_insert_ne.
Qed.

(** ** The candle fetcher on answers that do not make a frame *)

(** X9: a call of the candle fetcher that raises had no entry to serve,
    sent its one request, and left the session as it was: nothing is
    cached, and the next call for the pair asks the exchange again. *)
Theorem failed_candle_fetch_not_cached e s i limit w x w' :
  get_klines_cached e s i limit w = (Raised x, w') ->
  candle_cache (session w) !! cache_key s i = None /\
  session w' = session w /\
  requests_during w w' = [GET_klines s i limit None] /\
  forall e2 limit2,
    requests_during w' (snd (get_klines_cached e2 s i limit2 w'))
    = [GET_klines s i limit2 None].
Proof.
  rewrite get_klines_cached_spec.
  destruct (candle_cache (session w) !! cache_key s i) eqn:Ek; [discriminate|].
  simpl. intros H.
  assert (Hw : w' = log_request (GET_klines s i limit None) w).
  { destruct (decode _); [destruct (klines_frame _)|]; congruence. }
  subst w'. split; [reflexivity|]. split; [reflexivity|]. split.
  - unfold requests_during. simpl. by rewrite drop_app_length.
  - clear H. intros e2 limit2. rewrite get_klines_cached_spec. simpl.
    rewrite Ek.
    destruct (decode _); [destruct (klines_frame _)|];
      unfold requests_during; simpl; by rewrite drop_app_length.
Qed.

Lemma length_eqb_0 (arr : list (list jv)) :
  arr <> [] -> (length arr =? 0)%nat = false.
Proof. destruct arr; [done | reflexivity]. Qed.

(** X10: an answer that has lines, the longest of which does not have
    twelve cells, makes the candle fetcher raise [ValueError] after its
    one request; nothing is cached. *)
Theorem wrong_width_raises e s i limit w arr :
  candle_cache (session w) !! cache_key s i = None ->
  decode (KLINES (net e) s i limit None) = Returned arr ->
  arr <> [] -> width arr <> 12%nat ->
  get_klines_cached e s i limit w
  = (Raised ValueError, log_request (GET_klines s i limit None) w).
Proof.
  intros Hk Hd Harr Hw. rewrite get_klines_cached_spec, Hk, Hd. simpl.
  unfold klines_frame. rewrite (length_eqb_0 _ Harr).
  apply Nat.eqb_neq in Hw. by rewrite Hw.
Qed.

(** X11: an answer without any line is a frame without any line, and
    it is cached like any other: every later call of the session for the
    pair returns the empty series and asks nothing. *)
Theorem empty_answer_is_cached e s i limit w :
  candle_cache (session w) !! cache_key s i = None ->
  decode (KLINES (net e) s i limit None) = Returned [] ->
  exists w',
    get_klines_cached e s i limit w = (Returned [], w') /\
    candle_cache (session w') !! cache_key s i = Some [] /\
    forall runs e2 limit2,
      get_klines_cached e2 s i limit2 (reruns runs w')
      = (Returned [], reruns runs w').
Proof.
  intros Hk Hd. rewrite get_klines_cached_spec, Hk, Hd. simpl.
  eexists. split; [reflexivity|].
  assert (Hin : candle_cache (session (set_candle_cache
             (<[cache_key s i := []]> (candle_cache (session w)))
             (log_request (GET_klines s i limit None) w)))
           !! cache_key s i = Some []) by (simpl; apply lookup_insert_eq).
  split; [exact Hin|]. intros runs e2 limit2.
  apply (reruns_keep_candles runs) in Hin.
  by rewrite get_klines_cached_spec, Hin.
Qed.



(** ** The ticker cache *)

(** X13: a snapshot stored at [t0] is served for 12 time units: before
    [t0 + 12] a call returns it and changes nothing; from [t0 + 12] on a
    call asks the exchange once, returns what it decodes and stores it in
    place of the old snapshot, or raises and stores nothing. *)
Theorem ticker_cache_ttl e w t0 v :
  memo_tickers w = Some (t0, v) ->
  (now e < t0 + 12 -> fetch_all_tickers_24h e w = (Returned v, w)) /\
  (t0 + 12 <= now e ->
     exists w',
       fetch_all_tickers_24h e w = (decode (TICKER_24H (net e)), w') /\
       requests_during w w' = [GET_ticker_24hr] /\
       session w' = session w /\
       memo_tickers w' =
         match decode (TICKER_24H (net e)) with
         | Returned tickers => Some (now e, tickers)
         | Raised _ => Some (t0, v)
         end).
Proof.
  intros Hm. rewrite fetch_all_tickers_24h_spec, Hm. simpl. split.
  - intros Hlt. apply Z.ltb_lt in Hlt. by rewrite Hlt.
  - intros Hge. apply Z.ltb_ge in Hge. rewrite Hge. unfold requests_during.
    destruct (decode (TICKER_24H (net e))); eexists;
      (split; [reflexivity|]); simpl; rewrite drop_app_length; by repeat split.
Qed.

(** X14: a metadata fetch raises only after it asked the exchange: the
    decorated cache had nothing to serve at that time, one request was
    sent, what the exchange answered is what is raised, and neither the
    cache nor the session changed, so that an expired value is never
    served in place of an answer. *)
Theorem failed_metadata_fetch e w x w' :
  fetch_exchange_symbols e w = (Raised x, w') ->
  fresh 300 (now e) (memo_symbols w) = None /\
  decode (EXCHANGE_INFO (net e)) = Raised x /\
  requests_during w w' = [GET_exchangeInfo] /\
  memo_symbols w' = memo_symbols w /\ session w' = session w.
Proof.
  rewrite fetch_exchange_symbols_spec.
  destruct (fresh 300 (now e) (memo_symbols w)); [discriminate|].
  destruct (decode (EXCHANGE_INFO (net e))); [discriminate|].
  intros [= <- <-]. unfold requests_during. simpl.
  rewrite drop_app_length. by repeat split.
Qed.

(** ** The listing date, answer by answer *)


(** ** The time frames *)

Lemma interval_of_inj a b interval :
  interval_of a = Some interval -> interval_of b = Some interval -> a = b.
Proof.
  unfold interval_of. simpl.
  repeat case_bool_decide; simpl; try congruence;
    intros [= <-]; discriminate.
Qed.

(** X16: two different time frames of the widgets never share an entry
    of the candle cache, whatever the symbol: their wire intervals
    differ, and so do the keys built from them. *)
Theorem time_frames_do_not_share a b ia ib sym :
  interval_of a = Some ia -> interval_of b = Some ib -> a <> b ->
  ia <> ib /\ cache_key sym ia <> cache_key sym ib.
Proof.
  intros Ha Hb Hne.
  assert (Hi : ia <> ib).
  { intros <-. apply Hne. by eapply interval_of_inj. }
  split; [exact Hi|]. intros E.
  apply cache_key_inj in E as [_ E]; [done | |];
    by eapply is_interval_no_underscore, interval_of_is_interval.
Qed.

(** ** What holds all along a session *)

Lemma store_result_frame rows w o w' :
  store_result rows w = (o, w') ->
  symbols_cache (session w') = symbols_cache (session w) /\
  memo_symbols w' = memo_symbols w.
Proof.
  rewrite store_result_spec. destruct rows; intros [= _ <-]; by split.
Qed.

Lemma filter_symbols_ok data :
  Forall (fun s => is_usdt_perpetual s = true) (filter_symbols data).
Proof.
  apply Forall_forall. intros s Hs. by apply list_elem_of_filter in Hs as [Hs _].
Qed.

Lemma load_symbols_ok e rf w o w' :
  load_symbols e rf w = (o, w') -> symbols_ok w -> symbols_ok w'.
Proof.
  rewrite load_symbols_spec, fetch_exchange_symbols_spec.
  intros H [Hc Hm]. destruct (needs_fetch rf w); [|by injection H as _ <-].
  destruct (fresh 300 (now e) (memo_symbols w)) as [v|] eqn:Ef.
  - injection H as _ <-. split; simpl; [|exact Hm].
    intros l [= <-]. unfold fresh in Ef.
    destruct (memo_symbols w) as [[t0 v']|] eqn:Em; [|discriminate].
    destruct (now e <? t0 + 300); [|discriminate]. injection Ef as <-.
    by eapply Hm.
  - destruct (decode (EXCHANGE_INFO (net e))) as [data|x]; injection H as _ <-.
    + split; simpl.
      * intros l [= <-]. apply filter_symbols_ok.
      * intros t l [= _ <-]. apply filter_symbols_ok.
    + by split.
Qed.

Lemma reload_symbols_ok e N rf w o w' :
  reload e N rf w = (o, w') -> symbols_ok w -> symbols_ok w'.
Proof.
  rewrite reload_spec. intros H Hok.
  destruct (load_symbols e rf w) as [[[]|x] w1] eqn:E1;
    pose proof (load_symbols_ok _ _ _ _ _ E1 Hok) as Hok1;
    [|by injection H as _ <-].
  destruct (build_rows e N w1) as [o2 w2] eqn:E2.
  destruct (build_rows_frame _ _ _ _ _ E2) as (Hs2 & Hm2 & _).
  assert (Hok2 : symbols_ok w2).
  { destruct Hok1 as [Hc Hm]. split; [rewrite Hs2 | rewrite Hm2]; done. }
  destruct o2 as [rows|x]; [|by injection H as _ <-].
  destruct (store_result_frame _ _ _ _ H) as [Hc3 Hm3].
  destruct Hok2 as [Hc Hm]. split; [rewrite Hc3 | rewrite Hm3]; done.
Qed.

Lemma reload_table_ok e N rf w o w' :
  reload e N rf w = (o, w') -> table_ok w -> table_ok w'.
Proof.
  intros H Hok. destruct o as [[]|x].
  - destruct (reload_returned _ _ _ _ _ H)
      as (w1 & all_symbols & tickers & rows & _ & _ & _ & _ & Hrows & Hne & Hdf).
    intros df Hdf'. rewrite Hdf in Hdf'. injection Hdf' as <-. simpl.
    split; [reflexivity|]. split.
    + intros E. apply Hne. apply Permutation_nil. by rewrite <- E, nargsort_perm.
    + split; [|apply nargsort_chain]. rewrite nargsort_perm.
      destruct (survivors_sound _ _ _ _ Hrows) as [_ Hall].
      eapply Forall_impl; [exact Hall|].
      by intros r [(t & _ & _ & Hge) _].
  - intros df Hdf. apply Hok. by rewrite <- (reload_raised_keeps_result _ _ _ _ _ _ H).
Qed.

Lemma script_keeps_invariants e i w :
  symbols_ok w /\ table_ok w /\ keys_ok w ->
  symbols_ok (snd (script e i w)) /\ table_ok (snd (script e i w)) /\
  keys_ok (snd (script e i w)).
Proof.
  intros (Hs & Ht & Hk).
  assert (H1 : symbols_ok (snd (after_reload e i w)) /\
               table_ok (snd (after_reload e i w)) /\
               keys_ok (snd (after_reload e i w))).
  { unfold after_reload. destruct (need_reload i); [|simpl; auto].
    destruct (reload e (max_symbols i) (refresh i) w) as [o w1] eqn:E. simpl.
    split; [by eapply reload_symbols_ok|]. split; [by eapply reload_table_ok|].
    intros key. rewrite (reload_keeps_candles _ _ _ _ _ _ E). apply Hk. }
  rewrite script_spec.
  destruct (after_reload e i w) as [[[]|x] w1]; simpl in H1 |- *; [|exact H1].
  destruct (filtered_df (session w1)) eqn:Edf; simpl; [|exact H1].
  destruct (interval_of (chart_interval_label i)) as [interval|] eqn:Ei;
    simpl; [|exact H1].
  destruct (selected i) as [sym|]; simpl; [|exact H1].
  destruct (bool_decide (sym = ""%string)) eqn:Esym; simpl; [exact H1|].
  apply bool_decide_eq_false in Esym.
  destruct H1 as ([Hc1 Hm1] & Ht1 & Hk1).
  destruct (get_klines_cached e sym interval 500 w1) as [o w2] eqn:E.
  destruct (get_klines_cached_frame _ _ _ _ _ _ _ E) as (Hf & Hc & Hm & _).
  simpl. split; [|split].
  - split; [rewrite Hc | rewrite Hm]; done.
  - intros df. rewrite Hf. apply Ht1.
  - intros key Hkey. rewrite get_klines_cached_spec in E.
    destruct (candle_cache (session w1) !! cache_key sym interval) eqn:Ek.
    + injection E as _ <-. by apply Hk1.
    + simpl in E. destruct (decode _); [destruct (klines_frame _)|];
        injection E as _ <-; simpl in Hkey; try by apply Hk1.
      destruct (decide (cache_key sym interval = key)) as [<-|Hne].
      * exists sym, interval. repeat split; [|done].
        by eapply interval_of_is_interval.
      * rewrite lookup_insert_ne in Hkey by done. by apply Hk1.
Qed.

Lemma reruns_keep_invariants runs : forall w,
  symbols_ok w /\ table_ok w /\ keys_ok w ->
  symbols_ok (reruns runs w) /\ table_ok (reruns runs w) /\
  keys_ok (reruns runs w).
Proof.
  induction runs as [|[e i] rest IH]; intros w H; simpl; [exact H|].
  by apply IH, script_keeps_invariants.
Qed.

Lemma new_world_invariants :
  symbols_ok new_world /\ table_ok new_world /\ keys_ok new_world.
Proof.
  split; [split; [intros l [=] | intros t l [=]]|].
  split; [intros df [=]|].
  intros key [df Hdf]. simpl in Hdf. by rewrite lookup_empty in Hdf.
Qed.

(** X17: whatever the reruns of a session were, the table that the
    session holds, if it holds one, has the five columns and at least one
    row, no row of it has a percent change [>= 0], and its rows are
    ascending with the NaN last: the chooser of the chart never gets an
    empty list from it. *)
Theorem session_table_invariant runs df :
  filtered_df (session (reruns runs new_world)) = Some df ->
  columns df = row_keys /\ records df <> [] /\
  Forall (fun r => PyFloat.ge0 (pct_24h r) = false) (records df) /\
  forall i a b, records df !! i = Some a -> records df !! S i = Some b ->
    PrimFloat.leb (pct_24h a) (pct_24h b) = true \/
    PyFloat.is_nan (pct_24h b) = true.
Proof.
  intros Hdf.
  destruct (reruns_keep_invariants runs new_world new_world_invariants)
    as (_ & Ht & _).
  destruct (Ht df Hdf) as (Hc & Hne & Hge & Hch).
  repeat split; try done. by apply (chain_lookup le_pct_nan_last).
Qed.

(** X18: whatever the reruns of a session were, the metadata that the
    session holds lists only trading perpetual contracts quoted in USDT;
    so every row of the table and every listing lookup is about such a
    contract. *)
Theorem session_symbols_invariant runs l s :
  symbols_cache (session (reruns runs new_world)) = Some l ->
  s ∈ l ->
  quoteAsset s = "USDT"%string /\ contractType s = "PERPETUAL"%string /\
  status s = "TRADING"%string.
Proof.
  intros Hl Hs.
  destruct (reruns_keep_invariants runs new_world new_world_invariants)
    as ([Hc _] & _ & _).
  specialize (Hc l Hl). rewrite Forall_forall in Hc.
  by apply is_usdt_perpetual_true, Hc.
Qed.

(** X19: whatever the reruns of a session were, every key of its candle
    cache is the key of exactly one pair of a symbol and a wire interval
    of [INTERVAL_MAP], and that symbol is not empty: within a session no
    cached series can be served to another pair. *)
Theorem session_cache_keys runs key df :
  candle_cache (session (reruns runs new_world)) !! key = Some df ->
  exists sym i,
    key = cache_key sym i /\ is_interval i /\ sym <> ""%string /\
    forall sym' i', is_interval i' -> key = cache_key sym' i' ->
                    sym' = sym /\ i' = i.
Proof.
  intros Hk.
  destruct (reruns_keep_invariants runs new_world new_world_invariants)
    as (_ & _ & Hkeys).
  destruct (Hkeys key) as (sym & i & -> & Hi & Hsym); [by eexists|].
  exists sym, i. split; [reflexivity|]. split; [exact Hi|].
  split; [exact Hsym|]. intros sym' i' Hi' E. symmetry in E.
  apply cache_key_inj in E as [-> ->];
    [done | by apply is_interval_no_underscore..].
Qed.

End MoreFacts.

(** * The filtered result on the data of the exchange *)

Section DataModel.

Context `{RT : Runtime}.

(** The tickers of the map are tickers of the snapshot. *)
Lemma make_tick_map_elem tickers s t :
  make_tick_map tickers !! s = Some t -> t ∈ tickers.
Proof.
  intros H. apply make_tick_map_Some in H as (before & after & -> & _).
  apply elem_of_app. right. apply elem_of_cons. by left.
Qed.

(** On a snapshot of numbers every row of the loop has a number. *)
Lemma survivors_numbers e tickers symbol_list rows :
  numeric_snapshot tickers ->
  survivors e (make_tick_map tickers) symbol_list = Returned rows ->
  Forall (fun r => has_number r = true) rows.
Proof.
  intros Hnum Hrows. destruct (survivors_sound _ _ _ _ Hrows) as [_ Hall].
  eapply Forall_impl; [exact Hall|].
  intros r [(t & Ht & Hpct & _) _]. apply make_tick_map_elem in Ht.
  unfold has_number. by rewrite (Hnum t _ Ht Hpct).
Qed.

(** C1: when the percent changes of the snapshot are numbers, as the
    exchange sends them, every row of the Filtered Result that a refresh
    cycle produces has a percent change strictly below zero, and no row
    has a percent change [>= 0]. *)
Theorem filtered_rows_lt0 e N rf w w' tickers :
  reload e N rf w = (Returned tt, w') ->
  snapshot e w = Returned tickers ->
  numeric_snapshot tickers ->
  exists df, filtered_df (session w') = Some df /\
    forall r, r ∈ records df ->
      PyFloat.lt0 (pct_24h r) = true /\ PyFloat.ge0 (pct_24h r) = false.
Proof.
  intros H Hsnap Hnum.
  destruct (reload_returned _ _ _ _ _ H)
    as (w1 & all_symbols & tickers' & rows & _ & _ & _ & Hsnap' & Hrows & _ & Hdf).
  rewrite Hsnap in Hsnap'. injection Hsnap' as <-.
  exists (sorted_frame rows). split; [exact Hdf|].
  intros r Hr. simpl in Hr. rewrite nargsort_perm in Hr.
  destruct (survivors_sound _ _ _ _ Hrows) as [_ Hall].
  rewrite Forall_forall in Hall.
  destruct (Hall r Hr) as [(t & _ & _ & Hge) _].
  pose proof (survivors_numbers _ _ _ _ Hnum Hrows) as Hn.
  rewrite Forall_forall in Hn. specialize (Hn r Hr).
  unfold has_number in Hn. apply negb_true_iff in Hn.
  split; [by apply FloatOrder.not_ge0_lt0 | exact Hge].
Qed.

(** C2: when the percent changes of the snapshot are numbers, as the
    exchange sends them, every two adjacent rows of the Filtered Result
    of a refresh cycle are in ascending order of percent change: the
    first is at most the second. *)
Theorem filtered_rows_ascending e N rf w w' tickers :
  reload e N rf w = (Returned tt, w') ->
  snapshot e w = Returned tickers ->
  numeric_snapshot tickers ->
  exists df, filtered_df (session w') = Some df /\
    forall i a b, records df !! i = Some a -> records df !! S i = Some b ->
      PrimFloat.leb (pct_24h a) (pct_24h b) = true.
Proof.
  intros H Hsnap Hnum.
  destruct (reload_returned _ _ _ _ _ H)
    as (w1 & all_symbols & tickers' & rows & _ & _ & _ & Hsnap' & Hrows & _ & Hdf).
  rewrite Hsnap in Hsnap'. injection Hsnap' as <-.
  exists (sorted_frame rows). split; [exact Hdf|].
  apply (chain_lookup le_pct), nargsort_chain_numbers.
  by apply (survivors_numbers e tickers (map si_symbol (slice_to all_symbols N))).
Qed.

End DataModel.

(** * Runs on concrete answers of the exchange *)

#[local] Existing Instance Sample.runtime.

Example scenario_A :
  reload env_A 3 true new_world = (Returned tt, world_A) /\
  filtered_df (session world_A) =
    Some {| columns := row_keys; records := [row_AAA; row_CCC] |} /\
  sent world_A = [ GET_exchangeInfo; GET_ticker_24hr;
                   GET_klines "AAA" "1d" 1 (Some 0);
                   GET_klines "CCC" "1d" 1 (Some 0) ].
Proof. repeat split; vm_compute; reflexivity. Qed.

(** Outside the data model: a row whose percent change reads as NaN is
    kept, since NaN is not [>= 0], and [sort_values] puts it last. *)
Example scenario_NaN :
  reload env_NaN 200 true new_world = (Returned tt, world_NaN) /\
  filtered_df (session world_NaN) =
    Some {| columns := row_keys; records := [row_minus_one; row_nan] |}.
Proof. split; vm_compute; reflexivity. Qed.

Lemma filtered_rows_lt0_witness :
  reload env_A 3 true new_world = (Returned tt, world_A) /\
  snapshot env_A new_world = Returned tickers_A /\
  exists df, filtered_df (session world_A) = Some df /\
    forall r, r ∈ records df ->
      PyFloat.lt0 (pct_24h r) = true /\ PyFloat.ge0 (pct_24h r) = false.
Proof.
  split; [vm_compute; reflexivity|]. split; [vm_compute; reflexivity|].
  apply (filtered_rows_lt0 env_A 3 true new_world world_A tickers_A).
  - vm_compute; reflexivity.
  - vm_compute; reflexivity.
  - intros t x Ht. unfold tickers_A in Ht.
    rewrite !elem_of_cons, elem_of_nil in Ht.
    destruct Ht as [->|[->|[->|[]]]]; vm_compute; by intros [= <-].
Defined.

Lemma filtered_rows_ascending_witness :
  reload env_A 3 true new_world = (Returned tt, world_A) /\
  snapshot env_A new_world = Returned tickers_A /\
  exists df, filtered_df (session world_A) = Some df /\
    forall i a b, records df !! i = Some a -> records df !! S i = Some b ->
      PrimFloat.leb (pct_24h a) (pct_24h b) = true.
Proof.
  split; [vm_compute; reflexivity|]. split; [vm_compute; reflexivity|].
  apply (filtered_rows_ascending env_A 3 true new_world world_A tickers_A).
  - vm_compute; reflexivity.
  - vm_compute; reflexivity.
  - intros t x Ht. unfold tickers_A in Ht.
    rewrite !elem_of_cons, elem_of_nil in Ht.
    destruct Ht as [->|[->|[->|[]]]]; vm_compute; by intros [= <-].
Defined.

Lemma filtered_count_bound_witness :
  0 <= 2 /\
  reload env_A 2 true new_world = (Returned tt, snd (reload env_A 2 true new_world)) /\
  exists all_symbols tickers df,
    symbols_cache (session (snd (reload env_A 2 true new_world))) = Some all_symbols /\
    snapshot env_A new_world = Returned tickers /\
    filtered_df (session (snd (reload env_A 2 true new_world))) = Some df /\
    slice_to all_symbols 2 = take (Z.to_nat 2) all_symbols /\
    Z.of_nat (length (records df)) <= 2 /\
    (exists rows, records df ≡ₚ rows /\
       map symbol rows `sublist_of`
         map si_symbol (take (Z.to_nat 2) all_symbols)) /\
    (forall s pct, s ∈ take (Z.to_nat 2) all_symbols ->
       qualifies (make_tick_map tickers) (si_symbol s) pct ->
       exists r, r ∈ records df /\ symbol r = si_symbol s /\ pct_24h r = pct).
Proof.
  split; [lia|]. split; [vm_compute; reflexivity|].
  apply (filtered_count_bound env_A 2 true new_world); [lia|].
  vm_compute; reflexivity.
Defined.

Lemma listing_failure_isolated_witness :
  exists df rx ry,
    filtered_df (session world_A) = Some df /\
    rx ∈ records df /\ symbol rx = "AAA"%string /\
    listed_date rx = "N/A"%string /\
    ry ∈ records df /\ symbol ry = "CCC"%string /\
    listed_date ry = "10/09/2019"%string /\
    Calendar.is_date (2019, 9, 10) /\
    Calendar.is_dmY (listed_date ry) = true.
Proof.
  refine (proj1 (listing_failure_isolated env_A 3 true new_world world_A
            [listing "AAA"; listing "BBB"; listing "CCC"]
            [quote "AAA" "-5.0"; quote "BBB" "2.0"; quote "CCC" "-1.0"]
            "AAA" "CCC" (-5)%float (-1)%float (2019, 9, 10)
            _ _ _ _ _ _ _ _ _)).
  - vm_compute; reflexivity.
  - vm_compute; reflexivity.
  - vm_compute; reflexivity.
  - apply list_elem_of_In. vm_compute. auto.
  - apply list_elem_of_In. vm_compute. auto.
  - exists (quote "AAA" "-5.0"). repeat split; vm_compute; reflexivity.
  - exists (quote "CCC" "-1.0"). repeat split; vm_compute; reflexivity.
  - left. reflexivity.
  - exists {| status_code := 200; json := Some [first_candle] |},
      1568102400000, (tail first_candle), [].
    repeat split; vm_compute; reflexivity.
Defined.

Lemma reload_fail_fast_witness :
  exists w' added,
    reload env_503 3 true world_A = (Raised (HTTPError 503), w') /\
    (forall i, need_reload i = true -> max_symbols i = 3 -> refresh i = true ->
               script env_503 i world_A = (Raised (HTTPError 503), w')) /\
    filtered_df (session w') = filtered_df (session world_A) /\
    sent w' = sent world_A ++ added /\
    (added = [GET_exchangeInfo] \/ added = [GET_ticker_24hr] \/
     added = [GET_exchangeInfo; GET_ticker_24hr]).
Proof.
  apply (reload_fail_fast env_503 3 true world_A (HTTPError 503)).
  left. split; vm_compute; reflexivity.
Defined.

(** C7 as stated fails: the cycle of the refresh button sends no metadata
    request and keeps the three contracts it had. *)
Lemma explicit_refresh_counterexample :
  ~ (forall (RT : Runtime) e N w o w',
       reload e N true w = (o, w') ->
       GET_exchangeInfo ∈ requests_during w w').
Proof.
  intros H.
  specialize (H Sample.runtime env_A_later 3 world_A _ _ eq_refl).
  apply list_elem_of_In in H. vm_compute in H.
  destruct H as [H|[H|[]]]; discriminate.
Qed.

Example explicit_refresh_keeps_metadata :
  symbols_cache (session (snd (reload env_A_later 3 true world_A)))
  = Some [listing "AAA"; listing "BBB"; listing "CCC"].
Proof. vm_compute. reflexivity. Qed.

Lemma metadata_cache_ttl_witness :
  memo_symbols world_A
    = Some (1000, [listing "AAA"; listing "BBB"; listing "CCC"]) /\
  fetch_exchange_symbols env_A_later world_A
    = (Returned [listing "AAA"; listing "BBB"; listing "CCC"], world_A) /\
  (exists o w',
     fetch_exchange_symbols env_503 world_A = (o, w') /\
     requests_during world_A w' = [GET_exchangeInfo] /\
     o = outcome_map filter_symbols (decode (EXCHANGE_INFO (net env_503))) /\
     forall data, decode (EXCHANGE_INFO (net env_503)) = Returned data ->
                  memo_symbols w' = Some (now env_503, filter_symbols data)) /\
  load_symbols env_503 false world_A = (Returned tt, world_A).
Proof.
  assert (Hm : memo_symbols world_A
               = Some (1000, [listing "AAA"; listing "BBB"; listing "CCC"]))
    by (vm_compute; reflexivity).
  split; [exact Hm|].
  pose proof (metadata_cache_ttl env_A_later world_A _ _ Hm) as (Hin & _ & _).
  pose proof (metadata_cache_ttl env_503 world_A _ _ Hm) as (_ & Hout & Hkeep).
  split; [|split].
  - apply Hin. vm_compute. reflexivity.
  - apply Hout. vm_compute. discriminate.
  - apply Hkeep. vm_compute. eauto.
Defined.

Lemma candle_cache_ignores_limit_witness :
  length first_series = 1%nat /\
  get_klines_cached env_chart "BTCUSDT" "1h" 500 new_world
    = (Returned first_series, world_chart) /\
  get_klines_cached env_chart_later "BTCUSDT" "1h" 10
      (reruns [(env_A, chart_inputs)] world_chart)
    = (Returned first_series, reruns [(env_A, chart_inputs)] world_chart) /\
  requests_during (reruns [(env_A, chart_inputs)] world_chart)
    (snd (get_klines_cached env_chart_later "BTCUSDT" "1h" 10
            (reruns [(env_A, chart_inputs)] world_chart))) = [].
Proof.
  split; [vm_compute; reflexivity|].
  assert (H : get_klines_cached env_chart "BTCUSDT" "1h" 500 new_world
              = (Returned first_series, world_chart))
    by (vm_compute; reflexivity).
  split; [exact H|].
  exact (candle_cache_ignores_limit env_chart "BTCUSDT" "1h" 500 new_world
           first_series world_chart [(env_A, chart_inputs)] env_chart_later 10 H).
Defined.

Lemma candle_cache_key_distinct_witness :
  "1h"%string ∈ map snd INTERVAL_MAP /\ "4h"%string ∈ map snd INTERVAL_MAP /\
  cache_key "BTCUSDT" "1h" <> cache_key "BTCUSDT" "4h" /\
  candle_cache (session world_chart) !! cache_key "BTCUSDT" "4h" =
    candle_cache (session new_world) !! cache_key "BTCUSDT" "4h" /\
  (candle_cache (session new_world) !! cache_key "BTCUSDT" "4h" = None ->
   forall e2 limit2,
     requests_during world_chart
       (snd (get_klines_cached e2 "BTCUSDT" "4h" limit2 world_chart))
     = [GET_klines "BTCUSDT" "4h" limit2 None]).
Proof.
  assert (H1 : is_interval "1h") by (apply list_elem_of_In; simpl; auto 10).
  assert (H4 : is_interval "4h") by (apply list_elem_of_In; simpl; auto 10).
  split; [exact H1|]. split; [exact H4|].
  apply (candle_cache_key_distinct env_chart "BTCUSDT" "1h" 500 "BTCUSDT" "4h"
           new_world (Returned first_series) world_chart H1 H4).
  - discriminate.
  - vm_compute; reflexivity.
Defined.

Lemma malformed_numeric_is_nan_witness :
  valid_number (cell broken_candle 2) = false /\
  exists df c,
    klines_frame [first_candle; broken_candle] = Returned df /\
    df !! 1%nat = Some c /\
    forall k get, (k, get) ∈ numeric_cols ->
      to_numeric_coerce (column [first_candle; broken_candle] k) !! 1%nat
      = Some (get c) /\
      float_of (get c) = to_float (read_number (cell broken_candle k)) /\
      (valid_number (cell broken_candle k) = false ->
         get c = NFloat PrimFloat.nan /\
         isna (get c) = true /\
         PrimFloat.eqb (float_of (get c)) PrimFloat.zero = false).
Proof.
  split; [vm_compute; reflexivity|].
  apply (malformed_numeric_is_nan [first_candle; broken_candle] 1 broken_candle).
  - right. vm_compute. reflexivity.
  - repeat constructor; vm_compute; eauto.
  - reflexivity.
Defined.

Lemma reload_empty_rows_raises_witness :
  exists w',
    reload env_up 3 true world_A = (Raised (KeyError "% 24h"), w') /\
    filtered_df (session w') = filtered_df (session world_A) /\
    forall i, need_reload i = true -> max_symbols i = 3 -> refresh i = true ->
              script env_up i world_A = (Raised (KeyError "% 24h"), w').
Proof.
  apply (reload_empty_rows_raises env_up 3 true world_A
           (snd (load_symbols env_up true world_A))
           [listing "AAA"; listing "BBB"; listing "CCC"]
           [quote "AAA" "0.5"; quote "CCC" "0.0"]).
  - vm_compute; reflexivity.
  - vm_compute; reflexivity.
  - vm_compute; reflexivity.
  - assert (E : map si_symbol
                   (slice_to [listing "AAA"; listing "BBB"; listing "CCC"] 3)
                 = ["AAA"; "BBB"; "CCC"]%string) by (vm_compute; reflexivity).
    rewrite E.
    apply Forall_cons_2;
      [|apply Forall_cons_2; [|apply Forall_cons_2; [|apply Forall_nil_2]]].
    + right. exists (quote "AAA" "0.5"), (0.5)%float.
      repeat split; vm_compute; reflexivity.
    + left. vm_compute; reflexivity.
    + right. exists (quote "CCC" "0.0"), 0%float.
      repeat split; vm_compute; reflexivity.
Defined.

(** ** More runs *)

Lemma fetch_exchange_symbols_filters_witness :
  exists v w',
    fetch_exchange_symbols env_mixed new_world = (Returned v, w') /\
    v = [listing "AAA"; listing "CCC"] /\
    memo_symbols w' = Some (1000, v) /\
    requests_during new_world w' = [GET_exchangeInfo].
Proof.
  destruct (fetch_exchange_symbols_filters env_mixed new_world
              (match EXCHANGE_INFO exchange_mixed with
               | Response r => default [] (json r)
               | GetRaises => []
               end))
    as (v & w' & E & _ & _ & Hm & Hr & _);
    [vm_compute; reflexivity | vm_compute; reflexivity |].
  exists v, w'. split; [exact E|]. split; [|split; [exact Hm | exact Hr]].
  assert (E' : fst (fetch_exchange_symbols env_mixed new_world)
               = Returned [listing "AAA"; listing "CCC"])
    by (vm_compute; reflexivity).
  rewrite E in E'. by injection E' as ->.
Defined.

Example tick_map_last_wins_example :
  make_tick_map [quote "AAA" "-5.0"; quote "BBB" "2.0"; quote "AAA" "3.0"]
    !! "AAA"%string = Some (quote "AAA" "3.0").
Proof. vm_compute. reflexivity. Qed.

Lemma rows_come_from_tickers_witness :
  (forall r, r ∈ records table_A ->
     exists t, last_with_symbol tickers_A (symbol r) t /\ row_of_ticker env_A t r) /\
  (forall s, s ∉ map tk_symbol tickers_A -> s ∉ map symbol (records table_A)).
Proof.
  apply (rows_come_from_tickers env_A 3 true new_world world_A);
    vm_compute; reflexivity.
Defined.

Lemma cycle_requests_witness :
  exists prelude rows,
    is_prelude prelude /\ records table_A ≡ₚ rows /\
    requests_during new_world world_A =
      prelude ++ map (fun r => listing_request (symbol r)) rows.
Proof.
  apply (cycle_requests env_A 3 true new_world world_A);
    vm_compute; reflexivity.
Defined.

Lemma malformed_ticker_aborts_witness :
  exists w',
    reload env_bad 3 true world_A = (Raised ValueError, w') /\
    filtered_df (session w') = filtered_df (session world_A).
Proof.
  apply (malformed_ticker_aborts env_bad 3 true world_A
           (snd (load_symbols env_bad true world_A))
           [listing "AAA"; listing "BBB"; listing "CCC"]
           [quote "AAA" "-5.0"; quote "CCC" "n/a"]
           "CCC" (quote "CCC" "n/a")).
  - vm_compute; reflexivity.
  - vm_compute; reflexivity.
  - vm_compute; reflexivity.
  - apply list_elem_of_In. vm_compute. auto.
  - vm_compute; reflexivity.
  - left. vm_compute; reflexivity.
Defined.

Lemma idle_rerun_witness :
  exists w',
    script env_A idle_inputs world_A = (Returned tt, w') /\
    filtered_df (session w') = filtered_df (session world_A) /\
    symbols_cache (session w') = symbols_cache (session world_A) /\
    memo_symbols w' = memo_symbols world_A /\
    memo_tickers w' = memo_tickers world_A /\
    (filtered_df (session world_A) = None -> w' = world_A) /\
    (requests_during world_A w' = [] \/
     exists sym interval,
       selected idle_inputs = Some sym /\
       interval_of (chart_interval_label idle_inputs) = Some interval /\
       requests_during world_A w' = [GET_klines sym interval 500 None]).
Proof.
  apply (idle_rerun env_A idle_inputs world_A); [reflexivity|].
  apply list_elem_of_In. simpl. auto 10.
Defined.

Lemma chart_errors_caught_witness :
  fst (get_klines_cached env_A "AAA" "1h" 500 world_A) = Raised RequestException /\
  fst (script env_A chart_inputs_AAA new_world) = Returned tt /\
  filtered_df (session (snd (script env_A chart_inputs_AAA new_world)))
  = Some table_A.
Proof.
  split; [vm_compute; reflexivity|].
  destruct (chart_errors_caught env_A chart_inputs_AAA new_world) as [H1 H2].
  - apply list_elem_of_In. simpl. auto 10.
  - rewrite H1, H2. split; vm_compute; reflexivity.
Defined.

Lemma failed_candle_fetch_not_cached_witness :
  candle_cache (session world_A) !! cache_key "AAA" "1h" = None /\
  session (snd (get_klines_cached env_A "AAA" "1h" 500 world_A)) = session world_A /\
  requests_during world_A (snd (get_klines_cached env_A "AAA" "1h" 500 world_A))
  = [GET_klines "AAA" "1h" 500 None] /\
  forall e2 limit2,
    requests_during (snd (get_klines_cached env_A "AAA" "1h" 500 world_A))
      (snd (get_klines_cached e2 "AAA" "1h" limit2
              (snd (get_klines_cached env_A "AAA" "1h" 500 world_A))))
    = [GET_klines "AAA" "1h" limit2 None].
Proof.
  apply (failed_candle_fetch_not_cached env_A "AAA" "1h" 500 world_A
           RequestException).
  vm_compute; reflexivity.
Defined.

Lemma wrong_width_raises_witness :
  get_klines_cached env_short "CCC" "1h" 500 world_A
  = (Raised ValueError, log_request (GET_klines "CCC" "1h" 500 None) world_A).
Proof.
  apply (wrong_width_raises env_short "CCC" "1h" 500 world_A
           [[JInt 1568102400000; JStr "1.0"]]).
  - vm_compute; reflexivity.
  - vm_compute; reflexivity.
  - discriminate.
  - vm_compute. discriminate.
Defined.

Lemma empty_answer_is_cached_witness :
  exists w',
    get_klines_cached env_chart_later "CCC" "1h" 500 world_A = (Returned [], w') /\
    candle_cache (session w') !! cache_key "CCC" "1h" = Some [] /\
    forall runs e2 limit2,
      get_klines_cached e2 "CCC" "1h" limit2 (reruns runs w')
      = (Returned [], reruns runs w').
Proof.
  apply (empty_answer_is_cached env_chart_later "CCC" "1h" 500 world_A);
    vm_compute; reflexivity.
Defined.


(** A column of integers keeps them, even those that no float holds; one
    cell that is not an integer turns its whole column into floats. *)
Example integer_column_stays_exact :
  (volume <$> whole_series) = [NInt 9007199254740993; NInt 3096] /\
  (low <$> whole_series) = [NInt 9950; NInt 9900] /\
  (high <$> whole_series)
  = [NFloat (PyFloat.of_Z 10412); NFloat PrimFloat.nan] /\
  to_numeric_coerce [JInt 9007199254740993; JNull]
  = [NFloat (PyFloat.of_Z 9007199254740992); NFloat PrimFloat.nan].
Proof. vm_compute. repeat split. Qed.

Lemma ticker_cache_ttl_witness :
  memo_tickers world_A = Some (1000, tickers_A) /\
  fetch_all_tickers_24h env_A_later world_A = (Returned tickers_A, world_A) /\
  exists w',
    fetch_all_tickers_24h env_503 world_A
    = (decode (TICKER_24H (net env_503)), w') /\
    requests_during world_A w' = [GET_ticker_24hr] /\
    session w' = session world_A /\
    memo_tickers w' =
      match decode (TICKER_24H (net env_503)) with
      | Returned tickers => Some (now env_503, tickers)
      | Raised _ => Some (1000, tickers_A)
      end.
Proof.
  assert (Hm : memo_tickers world_A = Some (1000, tickers_A))
    by (vm_compute; reflexivity).
  split; [exact Hm|].
  destruct (ticker_cache_ttl env_A_later world_A _ _ Hm) as [Hin _].
  destruct (ticker_cache_ttl env_503 world_A _ _ Hm) as [_ Hout].
  split; [apply Hin; vm_compute; reflexivity|].
  apply Hout. vm_compute. discriminate.
Defined.

Lemma failed_metadata_fetch_witness :
  fresh 300 (now env_503) (memo_symbols world_A) = None /\
  decode (EXCHANGE_INFO (net env_503)) = Raised (HTTPError 503) /\
  requests_during world_A (snd (fetch_exchange_symbols env_503 world_A))
  = [GET_exchangeInfo] /\
  memo_symbols (snd (fetch_exchange_symbols env_503 world_A))
  = memo_symbols world_A /\
  session (snd (fetch_exchange_symbols env_503 world_A)) = session world_A.
Proof.
  apply (failed_metadata_fetch env_503 world_A (HTTPError 503)).
  vm_compute; reflexivity.
Defined.

(** The year is not padded: before the year 1000 it takes fewer than
    four digits. *)
Example strftime_small_years :
  Calendar.strftime_dmY (2019, 9, 10) = "10/09/2019"%string /\
  Calendar.strftime_dmY (999, 12, 31) = "31/12/999"%string /\
  option_map Calendar.strftime_dmY
    (Calendar.utcfromtimestamp_ms (-30610224000001))
  = Some "31/12/999"%string /\
  option_map Calendar.strftime_dmY
    (Calendar.utcfromtimestamp_ms (-62135596800000))
  = Some "01/01/1"%string /\
  Calendar.utcfromtimestamp_ms (-62135596800001) = None.
Proof. repeat split; vm_compute; reflexivity. Qed.

Example listed_date_examples :
  fst (listing_lookup env_A "CCC" new_world) = Returned "10/09/2019"%string /\
  fst (listing_lookup env_A "AAA" new_world) = Returned "N/A"%string /\
  fst (listing_lookup env_short "CCC" new_world) = Returned "10/09/2019"%string /\
  fst (listing_lookup env_chart_later "CCC" new_world) = Returned "N/A"%string.
Proof. repeat split; vm_compute; reflexivity. Qed.

Lemma time_frames_do_not_share_witness :
  "1h"%string <> "4h"%string /\
  cache_key "CCC" "1h" <> cache_key "CCC" "4h".
Proof.
  apply (time_frames_do_not_share "H1" "H4" "1h" "4h" "CCC");
    [reflexivity | reflexivity | discriminate].
Defined.

Lemma session_table_invariant_witness :
  filtered_df (session session_A) = Some table_A /\
  columns table_A = row_keys /\ records table_A <> [] /\
  Forall (fun r => PyFloat.ge0 (pct_24h r) = false) (records table_A) /\
  forall i a b, records table_A !! i = Some a ->
    records table_A !! S i = Some b ->
    PrimFloat.leb (pct_24h a) (pct_24h b) = true \/
    PyFloat.is_nan (pct_24h b) = true.
Proof.
  assert (H : filtered_df (session session_A) = Some table_A)
    by (vm_compute; reflexivity).
  split; [exact H|].
  exact (session_table_invariant [(env_A, chart_inputs)] table_A H).
Defined.

Lemma session_symbols_invariant_witness :
  symbols_cache (session session_A)
    = Some [listing "AAA"; listing "BBB"; listing "CCC"] /\
  quoteAsset (listing "BBB") = "USDT"%string /\
  contractType (listing "BBB") = "PERPETUAL"%string /\
  status (listing "BBB") = "TRADING"%string.
Proof.
  assert (H : symbols_cache (session session_A)
              = Some [listing "AAA"; listing "BBB"; listing "CCC"])
    by (vm_compute; reflexivity).
  split; [exact H|].
  apply (session_symbols_invariant [(env_A, chart_inputs)] _ _ H).
  apply list_elem_of_In. simpl. auto.
Defined.

Lemma session_cache_keys_witness :
  exists df sym i,
    candle_cache (session session_A) !! "CCC_4h"%string = Some df /\
    "CCC_4h"%string = cache_key sym i /\ is_interval i /\ sym <> ""%string /\
    forall sym' i', is_interval i' -> "CCC_4h"%string = cache_key sym' i' ->
                    sym' = sym /\ i' = i.
Proof.
  assert (H : exists df,
    candle_cache (session session_A) !! "CCC_4h"%string = Some df).
  { eexists. vm_compute. reflexivity. }
  destruct H as [df H].
  destruct (session_cache_keys [(env_A, chart_inputs)] "CCC_4h" df H)
    as (sym & i & Hkey).
  exists df, sym, i. split; [exact H | exact Hkey].
Defined.
